(** * validate-jar-language-level.py

    A shallow embedding of [src/util/validate-jar-language-level.py] and the
    properties of its specification.

    The script reads a zip archive, runs the [javap] disassembler once per
    class entry and raises a [ValueError] when a class has another bytecode
    major version than the expected one.  The file system, the disassembler
    and the temporary-directory name are the environment of the script: the
    file system is an explicit state, the other two are oracles of an [OS]
    record, and every effect of a run is recorded in a trace. *)

From Stdlib Require Import Ascii String DecimalString.
From stdpp Require Import gmap strings list fin_maps.

Local Open Scope string_scope.
Local Open Scope list_scope.

(** ** Python strings

    A Python [str] is modelled by [string]: its characters are the code
    points below 256.  On these, [\d] matches exactly [0]..[9] and
    [str.split()] separates at the characters of [is_space]. *)

Module PyStr.

Fixpoint startswith (s prefix : string) : bool :=
  match prefix, s with
  | EmptyString, _ => true
  | String p prefix', String c s' => if Ascii.eqb c p then startswith s' prefix' else false
  | String _ _, EmptyString => false
  end.

(** [s.endswith(suffix)]: the last [len(suffix)] characters of [s] are
    [suffix]. *)
Definition endswith (s suffix : string) : bool :=
  (String.length suffix <=? String.length s)%nat &&
  String.eqb (substring (String.length s - String.length suffix) (String.length suffix) s) suffix.

(** [s[:-n]] *)
Definition drop_last (n : nat) (s : string) : string :=
  substring 0 (String.length s - n) s.

(** [sep.join(l)] *)
Fixpoint join (sep : string) (l : list string) : string :=
  match l with
  | [] => ""
  | [x] => x
  | x :: l' => x +:+ sep +:+ join sep l'
  end.

(** [str(n)] of a non-negative [int] *)
Definition of_nat (n : nat) : string := NilEmpty.string_of_uint (Nat.to_uint n).

(** [repr(l)] of a list of strings that need no escaping (here: digit
    strings), as [%s] renders it. *)
Definition repr_list (l : list string) : string :=
  "[" +:+ join ", " (map (fun x => "'" +:+ x +:+ "'") l) +:+ "]".

(** White space of [str.split()] among the code points below 256. *)
Definition is_space (c : ascii) : bool :=
  let n := nat_of_ascii c in
  ((9 <=? n) && (n <=? 13) || (28 <=? n) && (n <=? 32) || (n =? 133) || (n =? 160))%nat.

(** [s.split()]: the maximal runs of characters that are not white space;
    [w] is the run being read. *)
Fixpoint split_from (w s : string) : list string :=
  match s with
  | EmptyString => if String.eqb w "" then [] else [w]
  | String c s' =>
      if is_space c
      then (if String.eqb w "" then split_from "" s' else w :: split_from "" s')
      else split_from (w +:+ String c "") s'
  end.

Definition split (s : string) : list string := split_from "" s.

Definition newline : string := String (ascii_of_nat 10) "".

End PyStr.

(** ** The regular expression [major version: (\d+)] *)

Module Re.

(** [\d] on the characters of [string], the code points below 256: the
    decimal digits among them are [0]..[9] only.  The other decimal digits
    of Unicode, which [\d] of a [str] pattern matches too, are above 255 and
    no [string] holds them: texts with such characters are outside the
    model. *)
Definition is_digit (c : ascii) : bool :=
  ((48 <=? nat_of_ascii c) && (nat_of_ascii c <=? 57))%nat.

(** The longest prefix of digits: what the greedy [\d+] consumes, nothing
    follows it in the pattern. *)
Fixpoint digits (s : string) : string :=
  match s with
  | String c s' => if is_digit c then String c (digits s') else ""
  | EmptyString => ""
  end.

Fixpoint strip_prefix (prefix s : string) : option string :=
  match prefix, s with
  | EmptyString, _ => Some s
  | String p prefix', String c s' => if Ascii.eqb c p then strip_prefix prefix' s' else None
  | String _ _, EmptyString => None
  end.

Definition literal : string := "major version: ".

(** A match of the pattern at the start of [s]: the captured group and the
    length of the whole match. *)
Definition match_here (s : string) : option (string * nat) :=
  match strip_prefix literal s with
  | Some r =>
      let d := digits r in
      if String.eqb d "" then None else Some (d, String.length literal + String.length d)
  | None => None
  end.

(** [pattern.findall(s)]: the groups of the non-overlapping matches, left
    to right; [skip] characters are still inside the previous match. *)
Fixpoint findall_from (skip : nat) (s : string) : list string :=
  match s with
  | EmptyString => []
  | String _ s' =>
      match skip with
      | S k => findall_from k s'
      | O =>
          match match_here s with
          | Some (d, n) => d :: findall_from (n - 1) s'
          | None => findall_from 0 s'
          end
      end
  end.

Definition findall (s : string) : list string := findall_from 0 s.

End Re.

(** ** Archives, the file system and the environment *)

(** What [zipfile] tells about a member: its name and what [is_dir()]
    answers. *)
Record ZipInfo := mkZipInfo { filename : string; is_dir : bool }.

(** A file is a zip archive, with its members in stored order, or anything
    else. *)
#[warnings="-register-all"] Inductive file : Type :=
| Data (bytes : string)
| Archive (members : list (ZipInfo * file)).

Inductive node : Type :=
| Dir
| File (f : file).

Abbreviation FS := (gmap string node).

Inductive exn : Type :=
| ValueError (msg : string)
| KeyError (msg : string)
| FileNotFoundError (path : string)
| IsADirectoryError (path : string)
| BadZipFile (path : string)
| CalledProcessError (returncode : Z) (cmd : list string).

(** How a child process ends. *)
Inductive completed : Type :=
| Exited (returncode : Z) (stdout : string)
| NoSuchProgram.

(** The part of the system the script does not control: what a command
    prints in a given file system, and the name [tempfile.mkdtemp] picks. *)
Record OS := mkOS {
  run_process : FS -> list string -> completed;
  mkdtemp_path : FS -> string
}.

(** The effects of a run, in the order they happen.  A progress line is kept
    with its fields: the text of the set of levels depends on its iteration
    order. *)
Inductive event : Type :=
| EvOpenZip (path : string)
| EvRun (args : list string)
| EvPrint (jar_file : string) (i num_files : nat) (expected : string) (found : gset string)
| EvMkdtemp (path : string)
| EvExtract (member target : string)
| EvRmtree (path : string).

(** ** Computations: a file system state, a trace and exceptions *)

Record Out (A : Type) := mkOut {
  final_fs : FS;
  trace : list event;
  result : exn + A
}.
Arguments mkOut {A} _ _ _.
Arguments final_fs {A} _.
Arguments trace {A} _.
Arguments result {A} _.

Definition M (A : Type) : Type := FS -> Out A.

#[global] Instance M_ret : MRet M := fun A a fs => mkOut fs [] (inr a).

#[global] Instance M_bind : MBind M := fun A B f m fs =>
  let o := m fs in
  match result o with
  | inl e => mkOut (final_fs o) (trace o) (inl e)
  | inr a =>
      let o' := f a (final_fs o) in
      mkOut (final_fs o') (trace o ++ trace o') (result o')
  end.

Definition raise {A} (e : exn) : M A := fun fs => mkOut fs [] (inl e).

Definition emit (ev : event) : M unit := fun fs => mkOut fs [ev] (inr tt).

(** [zipfile.ZipFile(path, 'r')] and its [infolist()] *)
Definition ZipFile (path : string) : M (list (ZipInfo * file)) := fun fs =>
  mkOut fs [EvOpenZip path]
    match fs !! path with
    | None => inl (FileNotFoundError path)
    | Some Dir => inl (IsADirectoryError path)
    | Some (File (Data _)) => inl (BadZipFile path)
    | Some (File (Archive members)) => inr members
    end.

Definition infolist (zip_file : list (ZipInfo * file)) : list ZipInfo := fst <$> zip_file.

(** [ZipFile.getinfo]: of several members of one name, the archive's name
    table keeps the last. *)
Definition getinfo (zip_file : list (ZipInfo * file)) (name : string) : option (ZipInfo * file) :=
  last (filter (fun m => filename (fst m) = name) zip_file).

(** [zip_file.extract(member, path)] for a member name of one path component
    and an absolute, normalised [path]: the member is written below [path]
    and the path of the new file is returned. *)
Definition extract (zip_file : list (ZipInfo * file)) (member path : string) : M string :=
  match getinfo zip_file member with
  | None => raise (KeyError ("There is no item named '" +:+ member +:+ "' in the archive"))
  | Some (info, f) =>
      let target := path +:+ "/" +:+ member in
      fun fs =>
        mkOut (<[target := if is_dir info then Dir else File f]> fs)
              [EvExtract member target] (inr target)
  end.

(** [path] itself or something below it *)
Definition below (path p : string) : bool :=
  String.eqb p path || PyStr.startswith p (path +:+ "/").

(** [shutil.rmtree(path)] *)
Definition rmtree (path : string) : M unit := fun fs =>
  mkOut (filter (fun kv => below path (fst kv) = false) fs) [EvRmtree path] (inr tt).

Section Program.

Variable os : OS.

(** [tempfile.mkdtemp()] *)
Definition mkdtemp : M string := fun fs =>
  let dirpath := mkdtemp_path os fs in
  mkOut (<[dirpath := Dir]> fs) [EvMkdtemp dirpath] (inr dirpath).

(** [subprocess.run(args, stdout=PIPE, text=True, check=True).stdout] *)
Definition subprocess_run (args : list string) : M string := fun fs =>
  mkOut fs [EvRun args]
    match run_process os fs args with
    | NoSuchProgram => inl (FileNotFoundError (default "" (head args)))
    | Exited returncode stdout =>
        if (returncode =? 0)%Z then inr stdout else inl (CalledProcessError returncode args)
    end.

Definition ignore_entries_prefix : list string :=
  ["dagger/spi/internal/shaded/"; "dagger/grpc/shaded/"].

Definition ignore_entry (filename : string) : bool :=
  existsb (fun prefix => PyStr.startswith filename prefix) ignore_entries_prefix.

(** The condition of lines 62-66: the entry is a class to disassemble. *)
Definition is_class_entry (info : ZipInfo) : bool :=
  negb (is_dir info) && PyStr.endswith (filename info) ".class" && negb (ignore_entry (filename info)).

(** ['javap -cp {0} -v {1}'.format(jar_file, info.filename[:-6]).split()] *)
Definition javap_cmd (jar_file : string) (info : ZipInfo) : list string :=
  PyStr.split ("javap -cp " +:+ jar_file +:+ " -v " +:+ PyStr.drop_last 6 (filename info)).

(** The loop of [_invalid_language_level] over the entries still to visit;
    [i] is the index of the next entry. *)
Fixpoint scan_entries (jar_file expected_language_level : string) (num_files i : nat)
    (infos : list ZipInfo) (invalid_entries : list string)
    (unique_language_levels : gset string) : M (list string) :=
  match infos with
  | [] => mret invalid_entries
  | info :: infos' =>
      emit (EvPrint jar_file (i + 1) num_files expected_language_level unique_language_levels);;
      if is_class_entry info then
        output1 ← subprocess_run (javap_cmd jar_file info);
        let matches := Re.findall output1 in
        match matches with
        | [class_language_level] =>
            scan_entries jar_file expected_language_level num_files (S i) infos'
              (if String.eqb class_language_level expected_language_level
               then invalid_entries
               else invalid_entries ++ [filename info +:+ ": " +:+ class_language_level])
              ({[class_language_level]} ∪ unique_language_levels)
        | _ =>
            raise (ValueError ("Expected exactly one match but found: " +:+ PyStr.repr_list matches))
        end
      else
        scan_entries jar_file expected_language_level num_files (S i) infos'
          invalid_entries unique_language_levels
  end.

Definition _invalid_language_level (jar_file expected_language_level : string) : M (list string) :=
  zip_file ← ZipFile jar_file;
  scan_entries jar_file expected_language_level (length (infolist zip_file)) 0
    (infolist zip_file) [] ∅.

(** [argv[-2:]] *)
Definition last_two (argv : list string) : list string :=
  drop (length argv - 2) argv.

Definition main (argv : list string) : M unit :=
  if (3 <? length argv)%nat then
    raise (ValueError ("Expected only two arguments but got " +:+ PyStr.of_nat (length argv)))
  else
    match last_two argv with
    | [jar_file; java_language_level] =>
        invalid_entries ←
          (if PyStr.endswith jar_file ".jar" then
             _invalid_language_level jar_file java_language_level
           else if PyStr.endswith jar_file ".aar" then
             dirpath ← mkdtemp;
             invalid_entries ←
               (zip_file ← ZipFile jar_file;
                class_file ← extract zip_file "classes.jar" dirpath;
                _invalid_language_level class_file java_language_level);
             rmtree dirpath;;
             mret invalid_entries
           else
             raise (ValueError ("Invalid jar file: " +:+ jar_file)));
        match invalid_entries with
        | [] => mret tt
        | _ :: _ =>
            raise (ValueError
              ("Found invalid entries in " +:+ jar_file +:+
               " that do not match the expected java language level (" +:+
               java_language_level +:+ "):" +:+ PyStr.newline +:+ "    " +:+
               PyStr.join (PyStr.newline +:+ "    ") invalid_entries))
        end
    | values =>
        raise (ValueError ("not enough values to unpack (expected 2, got " +:+
                           PyStr.of_nat (length values) +:+ ")"))
    end.

End Program.

(** ** What a scan observes *)

(** The commands a trace ran, in order. *)
Definition commands (tr : list event) : list (list string) :=
  omap (fun ev => match ev with EvRun args => Some args | _ => None end) tr.

Section Observations.

Variable os : OS.
Variable fs : FS.
Variable jar_file : string.

(** What [javap] prints for an entry, when it exits with status 0. *)
Definition disassembly (info : ZipInfo) : option string :=
  match run_process os fs (javap_cmd jar_file info) with
  | Exited returncode stdout => if (returncode =? 0)%Z then Some stdout else None
  | NoSuchProgram => None
  end.

(** The major version of a class entry: the one match of the pattern. *)
Definition extracted_version (info : ZipInfo) : option string :=
  match Re.findall <$> disassembly info with
  | Some [v] => Some v
  | _ => None
  end.

(** Every class entry of [infos] disassembles to exactly one version. *)
Definition all_extracted (infos : list ZipInfo) : Prop :=
  Forall (fun info => is_class_entry info = true -> is_Some (extracted_version info)) infos.

(** A class entry with another version than the expected one. *)
Definition mismatched (expected : string) (info : ZipInfo) : bool :=
  is_class_entry info &&
  match extracted_version info with
  | Some v => negb (String.eqb v expected)
  | None => false
  end.

Definition report_line (info : ZipInfo) : string :=
  filename info +:+ ": " +:+ default "" (extracted_version info).

(** The lines of the mismatched entries, in stored order. *)
Definition invalid_lines (expected : string) (infos : list ZipInfo) : list string :=
  report_line <$> filter (fun info => mismatched expected info = true) infos.

End Observations.

(** The text of the validation error of [main]. *)
Definition validation_message (jar_file java_language_level : string) (lines : list string) : string :=
  "Found invalid entries in " +:+ jar_file +:+
  " that do not match the expected java language level (" +:+ java_language_level +:+ "):" +:+
  PyStr.newline +:+ "    " +:+ PyStr.join (PyStr.newline +:+ "    ") lines.

(** The text of the parse error of [_invalid_language_level]. *)
Definition parse_message (matches : list string) : string :=
  "Expected exactly one match but found: " +:+ PyStr.repr_list matches.

(** ** The outcome of a run *)

(** What [main] makes of the outcome of the scan (lines 33-39). *)
Definition report (jar_file java_language_level : string) (r : exn + list string) : exn + unit :=
  match r with
  | inl e => inl e
  | inr [] => inr tt
  | inr (line :: lines) =>
      inl (ValueError (validation_message jar_file java_language_level (line :: lines)))
  end.

(** The [with] block of the [.aar] branch (lines 26-28), run after
    [mkdtemp] returned [dirpath]. *)
Definition extract_and_scan (os : OS) (jar_file java_language_level dirpath : string) : M (list string) :=
  zip_file ← ZipFile jar_file;
  class_file ← extract zip_file "classes.jar" dirpath;
  _invalid_language_level os class_file java_language_level.


(** ** The texts of the other errors *)

(** The texts of the errors on the argument count: the one [main] raises
    and the one of the unpacking of [argv[-2:]]. *)
Definition too_many_message (n : nat) : string :=
  "Expected only two arguments but got " +:+ PyStr.of_nat n.

Definition unpack_message (n : nat) : string :=
  "not enough values to unpack (expected 2, got " +:+ PyStr.of_nat n +:+ ")".

(** Of the [ValueError]s, a scan raises the parse error only. *)
Definition parse_error_if_value (e : exn) : Prop :=
  match e with
  | ValueError msg => exists matches, msg = parse_message matches
  | _ => True
  end.

(** ** A small environment to run the model on *)

Module Demo.

(** A stand-in for the disassembler: for [javap -cp jar -v cls] it prints
    the bytes of the member [cls.class] of the archive at [jar]. *)
Definition javap (fs : FS) (args : list string) : completed :=
  match args with
  | [prog; "-cp"; jar; "-v"; cls] =>
      match fs !! jar with
      | Some (File (Archive members)) =>
          match getinfo members (cls +:+ ".class") with
          | Some (_, Data out) => Exited 0 out
          | _ => Exited 1 ""
          end
      | _ => Exited 1 ""
      end
  | _ => Exited 2 ""
  end.

Definition os : OS := mkOS javap (fun _ => "/tmp/tmpq3x").


Definition class_of (v : string) : file :=
  Data ("  minor version: 0" +:+ PyStr.newline +:+ "  major version: " +:+ v +:+ PyStr.newline).

Definition entry (name v : string) : ZipInfo * file := (mkZipInfo name false, class_of v).

Definition folder (name : string) : ZipInfo * file := (mkZipInfo name true, Data "").

Definition Y52 := entry "com/x/Y.class" "52".
Definition Z55 := entry "com/x/Z.class" "55".
Definition W49 := entry "com/x/W.class" "49".

(** a disassembly without the line of the major version *)
Definition no_version : string :=
  "Classfile com/x/B.class" +:+ PyStr.newline +:+ "  minor version: 0" +:+ PyStr.newline.

Definition broken : ZipInfo * file := (mkZipInfo "com/x/B.class" false, Data no_version).

(** a class with the text of the pattern in its constant pool *)
Definition twice : ZipInfo * file :=
  (mkZipInfo "com/x/P.class" false,
   Data ("  major version: 52" +:+ PyStr.newline +:+ "  #9 = Utf8 major version: 1" +:+ PyStr.newline)).

Definition shaded55 := entry "dagger/grpc/shaded/S.class" "55".

(** a member with a class name that the stand-in cannot disassemble: its
    content is an archive *)
Definition nested : ZipInfo * file := (mkZipInfo "com/x/N.class" false, Archive []).

Definition fs_of (path : string) (members : list (ZipInfo * file)) : FS :=
  {[ path := File (Archive members) ]}.

End Demo.

(** ** Further observations *)

(** The counters of the progress lines of a trace: the number of the entry
    and the number of entries. *)
Definition progress (tr : list event) : list (nat * nat) :=
  omap (fun ev => match ev with EvPrint _ i num_files _ _ => Some (i, num_files) | _ => None end) tr.

(** The sets of levels the progress lines of a trace show. *)
Definition levels_shown (tr : list event) : list (gset string) :=
  omap (fun ev => match ev with EvPrint _ _ _ _ found => Some found | _ => None end) tr.

(** The versions of the class entries of [infos], as a set. *)
Definition versions (os : OS) (fs : FS) (jar_file : string) (infos : list ZipInfo) : gset string :=
  list_to_set (omap (extracted_version os fs jar_file)
                 (filter (fun a => is_class_entry a = true) infos)).

(** Every character of [s] passes the test [p]. *)
Fixpoint all_chars (p : ascii -> bool) (s : string) : bool :=
  match s with
  | EmptyString => true
  | String c s' => p c && all_chars p s'
  end.

(** A string of one or more decimal digits. *)
Definition digit_string (s : string) : bool :=
  negb (String.eqb s "") && all_chars Re.is_digit s.

(** The first character of [s] is a decimal digit: a match of [\d+] that
    ends before [s] would go on into it. *)
Definition head_is_digit (s : string) : bool :=
  match s with
  | String c _ => Re.is_digit c
  | EmptyString => false
  end.

(** A string [str.split()] leaves in one piece. *)
Definition no_space (s : string) : bool :=
  all_chars (fun c => negb (PyStr.is_space c)) s.

(** A string in which no match of the pattern can start. *)
Definition no_m (s : string) : bool :=
  all_chars (fun c => negb (Ascii.eqb c "m")) s.

(** The error [ZipFile] raises for what is at a path, when that is no
    archive. *)
Definition open_error (fs : FS) (path : string) : exn :=
  match fs !! path with
  | None => FileNotFoundError path
  | Some Dir => IsADirectoryError path
  | _ => BadZipFile path
  end.

(** The error [subprocess.run] raises for a command that does not end with
    status 0. *)
Definition process_error (os : OS) (fs : FS) (args : list string) : exn :=
  match run_process os fs args with
  | NoSuchProgram => FileNotFoundError (default "" (head args))
  | Exited returncode _ => CalledProcessError returncode args
  end.

Arguments commands : simpl never.
Arguments javap_cmd : simpl never.
Arguments is_class_entry : simpl never.
Arguments Re.findall : simpl never.
Arguments PyStr.endswith : simpl never.
Arguments PyStr.repr_list : simpl never.
Arguments PyStr.of_nat : simpl never.
Arguments PyStr.join : simpl never.
Arguments String.append : simpl never.

(** * Properties *)

(** ** The string functions on examples *)

Example endswith_jar : PyStr.endswith "lib.jar" ".jar" = true.
Proof. reflexivity. Qed.

Example endswith_short : PyStr.endswith "jar" ".jar" = false.
Proof. reflexivity. Qed.

Example drop_class : PyStr.drop_last 6 "com/x/Y.class" = "com/x/Y".
Proof. reflexivity. Qed.

Example split_cmd : PyStr.split "javap -cp  a.jar -v x " = ["javap"; "-cp"; "a.jar"; "-v"; "x"].
Proof. reflexivity. Qed.

Example findall_one :
  Re.findall ("  minor version: 0" +:+ PyStr.newline +:+ "  major version: 52" +:+ PyStr.newline) = ["52"].
Proof. reflexivity. Qed.

Example findall_two : Re.findall "major version: 52major version: 7x major version: y" = ["52"; "7"].
Proof. reflexivity. Qed.

Example repr_two : PyStr.repr_list ["52"; "55"] = "['52', '55']".
Proof. reflexivity. Qed.

Example of_nat_4 : PyStr.of_nat 4 = "4" /\ PyStr.of_nat 0 = "0" /\ PyStr.of_nat 12 = "12".
Proof. repeat split; reflexivity. Qed.

(** ** The commands of a trace *)

Lemma commands_cons ev tr :
  commands (ev :: tr) =
  match ev with EvRun args => args :: commands tr | _ => commands tr end.
Proof. by destruct ev. Qed.

(** ** One iteration of the scan *)

Section ScanLemmas.

Variable os : OS.
Variables jar_file expected : string.

Lemma scan_skip n i info infos inv u fs :
  is_class_entry info = false ->
  scan_entries os jar_file expected n i (info :: infos) inv u fs =
  let o := scan_entries os jar_file expected n (S i) infos inv u fs in
  mkOut (final_fs o) (EvPrint jar_file (i + 1) n expected u :: trace o) (result o).
Proof.
  intros Hskip. cbn [scan_entries]. rewrite Hskip. reflexivity.
Qed.

Lemma scan_class n i info infos inv u fs v :
  is_class_entry info = true ->
  extracted_version os fs jar_file info = Some v ->
  scan_entries os jar_file expected n i (info :: infos) inv u fs =
  let o := scan_entries os jar_file expected n (S i) infos
             (if String.eqb v expected then inv else inv ++ [filename info +:+ ": " +:+ v])
             ({[v]} ∪ u) fs in
  mkOut (final_fs o)
        (EvPrint jar_file (i + 1) n expected u :: EvRun (javap_cmd jar_file info) :: trace o)
        (result o).
Proof.
  intros Hclass Hv. cbn [scan_entries]. rewrite Hclass.
  unfold extracted_version, disassembly in Hv.
  unfold mbind, M_bind, emit, subprocess_run. cbn [result final_fs trace].
  destruct (run_process os fs (javap_cmd jar_file info)) as [rc out|]; [|discriminate].
  destruct (rc =? 0)%Z; [|discriminate]. cbn in Hv. cbn [result final_fs trace].
  destruct (Re.findall out) as [|v' [|]]; try discriminate.
  injection Hv as ->. reflexivity.
Qed.

(** A class entry that does not disassemble to one version ends the scan. *)
Lemma scan_abort n i info infos inv u fs :
  is_class_entry info = true ->
  extracted_version os fs jar_file info = None ->
  scan_entries os jar_file expected n i (info :: infos) inv u fs =
  mkOut fs [EvPrint jar_file (i + 1) n expected u; EvRun (javap_cmd jar_file info)]
    match run_process os fs (javap_cmd jar_file info) with
    | NoSuchProgram => inl (FileNotFoundError (default "" (head (javap_cmd jar_file info))))
    | Exited returncode stdout =>
        if (returncode =? 0)%Z then inl (ValueError (parse_message (Re.findall stdout)))
        else inl (CalledProcessError returncode (javap_cmd jar_file info))
    end.
Proof.
  intros Hclass Hv. cbn [scan_entries]. rewrite Hclass.
  unfold extracted_version, disassembly in Hv.
  unfold mbind, M_bind, emit, subprocess_run. cbn [result final_fs trace].
  destruct (run_process os fs (javap_cmd jar_file info)) as [rc out|]; [|reflexivity].
  destruct (rc =? 0)%Z; [|reflexivity]. cbn in Hv. cbn [result final_fs trace].
  destruct (Re.findall out) as [|v' [|]]; try discriminate; reflexivity.
Qed.

(** The scan reads the file system and leaves it as it is. *)
Lemma scan_final_fs n i infos inv u fs :
  final_fs (scan_entries os jar_file expected n i infos inv u fs) = fs.
Proof.
  revert i inv u. induction infos as [|info infos IH]; intros i inv u; [reflexivity|].
  destruct (is_class_entry info) eqn:Hclass.
  - destruct (extracted_version os fs jar_file info) as [v|] eqn:Hv.
    + rewrite (scan_class _ _ _ _ _ _ _ _ Hclass Hv). cbn. apply IH.
    + rewrite (scan_abort _ _ _ _ _ _ _ Hclass Hv). reflexivity.
  - rewrite (scan_skip _ _ _ _ _ _ _ Hclass). cbn. apply IH.
Qed.

(** The counters of the progress line change neither the result nor the
    commands. *)
Lemma scan_counters n i n' i' infos inv u u' fs :
  result (scan_entries os jar_file expected n i infos inv u fs) =
  result (scan_entries os jar_file expected n' i' infos inv u' fs) /\
  commands (trace (scan_entries os jar_file expected n i infos inv u fs)) =
  commands (trace (scan_entries os jar_file expected n' i' infos inv u' fs)).
Proof.
  revert i i' inv u u'. induction infos as [|info infos IH]; intros i i' inv u u'; [done|].
  destruct (is_class_entry info) eqn:Hclass.
  - destruct (extracted_version os fs jar_file info) as [v|] eqn:Hv.
    + rewrite !(scan_class _ _ _ _ _ _ _ _ Hclass Hv). cbn [result trace].
      destruct (IH (S i) (S i') (if String.eqb v expected then inv
                                 else inv ++ [filename info +:+ ": " +:+ v])
                  ({[v]} ∪ u) ({[v]} ∪ u')) as [Hres Hcmd].
      split; [exact Hres|]. rewrite !commands_cons. by rewrite Hcmd.
    + rewrite !(scan_abort _ _ _ _ _ _ _ Hclass Hv). done.
  - rewrite !(scan_skip _ _ _ _ _ _ _ Hclass). cbn [result trace].
    destruct (IH (S i) (S i') inv u u') as [Hres Hcmd].
    split; [exact Hres|]. rewrite !commands_cons. exact Hcmd.
Qed.

(** When every class entry disassembles to one version, the scan returns
    the lines of the mismatched entries after those it started with. *)
Lemma scan_all_extracted n i infos inv u fs :
  all_extracted os fs jar_file infos ->
  result (scan_entries os jar_file expected n i infos inv u fs) =
  inr (inv ++ invalid_lines os fs jar_file expected infos).
Proof.
  revert i inv u. induction infos as [|info infos IH]; intros i inv u Hall.
  - cbn. by rewrite app_nil_r.
  - apply Forall_cons in Hall as [Hinfo Hall].
    unfold invalid_lines. rewrite filter_cons.
    destruct (is_class_entry info) eqn:Hclass.
    + destruct (Hinfo eq_refl) as [v Hv].
      assert (Hm : mismatched os fs jar_file expected info = negb (String.eqb v expected))
        by (unfold mismatched; by rewrite Hclass, Hv).
      rewrite (scan_class _ _ _ _ _ _ _ _ Hclass Hv). cbn [result].
      rewrite IH by done.
      destruct (String.eqb v expected); cbn [negb] in Hm.
      * rewrite decide_False by (by rewrite Hm). done.
      * rewrite decide_True by (by rewrite Hm). rewrite fmap_cons.
        unfold report_line at 1. rewrite Hv. cbn [default].
        by rewrite <- app_assoc.
    + assert (Hm : mismatched os fs jar_file expected info = false)
        by (unfold mismatched; by rewrite Hclass).
      rewrite (scan_skip _ _ _ _ _ _ _ Hclass). cbn [result].
      rewrite decide_False by (by rewrite Hm). by apply IH.
Qed.

End ScanLemmas.

(** ** The branches of [main] *)

Section MainLemmas.

Variable os : OS.

Lemma main_unpacked argv jar_file level fs :
  length argv <= 3 ->
  last_two argv = [jar_file; level] ->
  main os argv fs = main os [jar_file; level] fs.
Proof.
  intros Hlen Hlast. unfold main.
  replace (3 <? length argv)%nat with false by (symmetry; apply Nat.ltb_ge; lia).
  rewrite Hlast. reflexivity.
Qed.

Lemma invalid_language_level_archive jar_file level fs members :
  fs !! jar_file = Some (File (Archive members)) ->
  _invalid_language_level os jar_file level fs =
  let o := scan_entries os jar_file level (length (infolist members)) 0 (infolist members) [] ∅ fs in
  mkOut (final_fs o) (EvOpenZip jar_file :: trace o) (result o).
Proof.
  intros Hfile. unfold _invalid_language_level, mbind, M_bind, ZipFile.
  cbn [result final_fs trace]. rewrite Hfile. reflexivity.
Qed.

Lemma invalid_language_level_final_fs jar_file level fs :
  final_fs (_invalid_language_level os jar_file level fs) = fs.
Proof.
  unfold _invalid_language_level, mbind, M_bind, ZipFile. cbn [result final_fs trace].
  destruct (fs !! jar_file) as [[|[bytes|members]]|]; cbn [final_fs]; try reflexivity.
  apply scan_final_fs.
Qed.

Lemma main_jar jar_file level fs :
  PyStr.endswith jar_file ".jar" = true ->
  main os [jar_file; level] fs =
  let o := _invalid_language_level os jar_file level fs in
  mkOut (final_fs o) (trace o) (report jar_file level (result o)).
Proof.
  intros Hjar. unfold main. cbn [length Nat.ltb Nat.leb last_two drop Nat.sub].
  rewrite Hjar. unfold mbind at 1, M_bind at 1.
  destruct (_invalid_language_level os jar_file level fs) as [fs' tr [e|[|line lines]]];
    cbn; by rewrite ?app_nil_r.
Qed.

(** The [.aar] branch around any block and any continuation. *)
Lemma scratch_block (blk : string -> M (list string)) (k : list string -> M unit) fs :
  ((dirpath ← mkdtemp os; invalid_entries ← blk dirpath; rmtree dirpath;; mret invalid_entries)
     ≫= k) fs =
  let dirpath := mkdtemp_path os fs in
  let o := blk dirpath (<[dirpath := Dir]> fs) in
  match result o with
  | inl e => mkOut (final_fs o) (EvMkdtemp dirpath :: trace o) (inl e)
  | inr lines =>
      let fs' := filter (fun kv => below dirpath (fst kv) = false) (final_fs o) in
      mkOut (final_fs (k lines fs'))
            (EvMkdtemp dirpath :: trace o ++ EvRmtree dirpath :: trace (k lines fs'))
            (result (k lines fs'))
  end.
Proof.
  unfold mbind, M_bind, mkdtemp, rmtree, mret, M_ret. cbn [result final_fs trace].
  destruct (blk (mkdtemp_path os fs) (<[mkdtemp_path os fs:=Dir]> fs)) as [fs' tr [e|lines]];
    cbn [result final_fs trace]; [reflexivity|].
  destruct (k lines _) as [fs'' tr' r]. cbn [result final_fs trace].
  rewrite app_nil_r. by rewrite <- !app_assoc.
Qed.

Lemma main_aar jar_file level fs :
  PyStr.endswith jar_file ".jar" = false ->
  PyStr.endswith jar_file ".aar" = true ->
  main os [jar_file; level] fs =
  let dirpath := mkdtemp_path os fs in
  let o := extract_and_scan os jar_file level dirpath (<[dirpath := Dir]> fs) in
  match result o with
  | inl e => mkOut (final_fs o) (EvMkdtemp dirpath :: trace o) (inl e)
  | inr lines =>
      mkOut (filter (fun kv => below dirpath (fst kv) = false) (final_fs o))
            (EvMkdtemp dirpath :: trace o ++ [EvRmtree dirpath])
            (report jar_file level (inr lines))
  end.
Proof.
  intros Hjar Haar. unfold main. cbn [length Nat.ltb Nat.leb last_two drop Nat.sub].
  rewrite Hjar, Haar.
  rewrite (scratch_block (extract_and_scan os jar_file level)). cbv zeta.
  destruct (result (extract_and_scan os jar_file level _ _)) as [e|[|line lines]]; reflexivity.
Qed.

Lemma main_other jar_file level fs :
  PyStr.endswith jar_file ".jar" = false ->
  PyStr.endswith jar_file ".aar" = false ->
  main os [jar_file; level] fs = mkOut fs [] (inl (ValueError ("Invalid jar file: " +:+ jar_file))).
Proof.
  intros Hjar Haar. unfold main. cbn [length Nat.ltb Nat.leb last_two drop Nat.sub].
  rewrite Hjar, Haar. reflexivity.
Qed.

End MainLemmas.

(** ** Facts on strings *)


Lemma length_app_string (a b : string) :
  String.length (a +:+ b) = String.length a + String.length b.
Proof.
  induction a as [|c a IH]; [reflexivity|].
  change (String c a +:+ b) with (String c (a +:+ b)). cbn [String.length]. by rewrite IH.
Qed.


Lemma endswith_aar_not_jar (s : string) :
  PyStr.endswith s ".aar" = true -> PyStr.endswith s ".jar" = false.
Proof.
  unfold PyStr.endswith. cbn [String.length]. intros H.
  apply andb_true_iff in H as [_ H]. apply String.eqb_eq in H. rewrite H.
  apply andb_false_r.
Qed.

(** A file below a directory is not the directory. *)
Lemma extracted_not_dirpath (dirpath member : string) :
  dirpath +:+ "/" +:+ member <> dirpath.
Proof.
  intros H. apply (f_equal String.length) in H.
  rewrite !length_app_string in H. cbn [String.length] in H. lia.
Qed.

(** ** The errors of a scan *)

Section Errors.

Variable os : OS.

Lemma scan_error jar_file expected n i infos inv u fs e :
  result (scan_entries os jar_file expected n i infos inv u fs) = inl e ->
  parse_error_if_value e.
Proof.
  revert i inv u. induction infos as [|info infos IH]; intros i inv u; [discriminate|].
  destruct (is_class_entry info) eqn:Hclass.
  - destruct (extracted_version os fs jar_file info) as [v|] eqn:Hv.
    + rewrite (scan_class _ _ _ _ _ _ _ _ _ _ _ Hclass Hv). apply IH.
    + rewrite (scan_abort _ _ _ _ _ _ _ _ _ _ Hclass Hv). cbn [result].
      destruct (run_process os fs (javap_cmd jar_file info)) as [rc out|].
      * destruct (rc =? 0)%Z; intros [= <-]; cbn; eauto.
      * intros [= <-]. exact I.
  - rewrite (scan_skip _ _ _ _ _ _ _ _ _ _ Hclass). apply IH.
Qed.

Lemma invalid_language_level_error jar_file level fs e :
  result (_invalid_language_level os jar_file level fs) = inl e ->
  parse_error_if_value e.
Proof.
  unfold _invalid_language_level, mbind, M_bind, ZipFile. cbn [result final_fs trace].
  destruct (fs !! jar_file) as [[|[bytes|members]]|]; cbn [result]; try (intros [= <-]; exact I).
  apply scan_error.
Qed.

Lemma extract_and_scan_error jar_file level dirpath fs e :
  result (extract_and_scan os jar_file level dirpath fs) = inl e ->
  parse_error_if_value e.
Proof.
  unfold extract_and_scan, mbind at 1, M_bind at 1, ZipFile. cbn [result final_fs trace].
  destruct (fs !! jar_file) as [[|[bytes|members]]|]; cbn [result]; try (intros [= <-]; exact I).
  unfold mbind, M_bind, extract.
  destruct (getinfo members "classes.jar") as [[info f]|]; cbn [result raise];
    [|intros [= <-]; exact I].
  apply invalid_language_level_error.
Qed.

Lemma parse_not_count matches n :
  parse_message matches <> too_many_message n /\ parse_message matches <> unpack_message n.
Proof. split; cbv [parse_message too_many_message unpack_message String.append]; discriminate. Qed.

Lemma validation_not_count jar_file level lines n :
  validation_message jar_file level lines <> too_many_message n /\
  validation_message jar_file level lines <> unpack_message n.
Proof. split; cbv [validation_message too_many_message unpack_message String.append]; discriminate. Qed.

Lemma validation_not_parse jar_file level lines matches :
  validation_message jar_file level lines <> parse_message matches.
Proof. cbv [validation_message parse_message String.append]; discriminate. Qed.

End Errors.

(** ** The command line *)

Section CommandLine.

Variable os : OS.

Lemma report_not_count jar_file level r n :
  match r with inl e => parse_error_if_value e | inr _ => True end ->
  report jar_file level r <> inl (ValueError (too_many_message n)) /\
  report jar_file level r <> inl (ValueError (unpack_message n)).
Proof.
  destruct r as [e|[|line lines]]; cbn [report]; intros He.
  - destruct e; try (split; discriminate).
    destruct He as [matches ->].
    destruct (parse_not_count matches n). split; congruence.
  - split; discriminate.
  - destruct (validation_not_count jar_file level (line :: lines) n). split; congruence.
Qed.

(** With two elements in [argv], no error on the argument count. *)
Lemma main_no_count_error jar_file level fs n :
  result (main os [jar_file; level] fs) <> inl (ValueError (too_many_message n)) /\
  result (main os [jar_file; level] fs) <> inl (ValueError (unpack_message n)).
Proof.
  destruct (PyStr.endswith jar_file ".jar") eqn:Hjar.
  - rewrite main_jar by done. cbn [result]. apply report_not_count.
    destruct (result (_invalid_language_level os jar_file level fs)) as [e|] eqn:He; [|done].
    by eapply invalid_language_level_error.
  - destruct (PyStr.endswith jar_file ".aar") eqn:Haar.
    + rewrite main_aar by done. cbv zeta.
      destruct (result (extract_and_scan os jar_file level _ _)) as [e|lines] eqn:He; cbn [result].
      * apply (report_not_count jar_file level (inl e)). by eapply extract_and_scan_error.
      * by apply report_not_count.
    + rewrite main_other by done. cbn [result].
      split; cbv [too_many_message unpack_message String.append]; discriminate.
Qed.

End CommandLine.

(** C7. When the last two elements of [argv] are a path that ends in neither
    [.jar] nor [.aar] and a level, [main] raises the [ValueError] 'Invalid
    jar file: ' followed by the path; its trace is empty (no archive was
    opened and no command run) and the file system is as before. *)
Theorem C7_invalid_extension (os : OS) (argv : list string) (jar_file level : string) (fs : FS) :
  length argv <= 3 ->
  last_two argv = [jar_file; level] ->
  PyStr.endswith jar_file ".jar" = false ->
  PyStr.endswith jar_file ".aar" = false ->
  result (main os argv fs) = inl (ValueError ("Invalid jar file: " +:+ jar_file)) /\
  trace (main os argv fs) = [] /\
  final_fs (main os argv fs) = fs.
Proof.
  intros Hlen Hlast Hjar Haar.
  rewrite (main_unpacked os argv jar_file level fs Hlen Hlast).
  by rewrite main_other.
Qed.

Lemma C7_invalid_extension_witness :
  result (main Demo.os ["validate.py"; "lib.zip"; "52"] (Demo.fs_of "lib.zip" [Demo.Z55])) =
    inl (ValueError "Invalid jar file: lib.zip") /\
  trace (main Demo.os ["validate.py"; "lib.zip"; "52"] (Demo.fs_of "lib.zip" [Demo.Z55])) = [] /\
  final_fs (main Demo.os ["validate.py"; "lib.zip"; "52"] (Demo.fs_of "lib.zip" [Demo.Z55])) =
    Demo.fs_of "lib.zip" [Demo.Z55].
Proof.
  apply (C7_invalid_extension Demo.os ["validate.py"; "lib.zip"; "52"] "lib.zip" "52").
  - cbn. lia.
  - reflexivity.
  - reflexivity.
  - reflexivity.
Defined.

(** An [argv] of another length than 3 makes [main] raise a [ValueError]
    with an empty trace and the file system as before, provided that, when it
    has two elements, the first one ends in neither [.jar] nor [.aar]. *)
Lemma wrong_count_raises (os : OS) (argv : list string) (fs : FS) :
  length argv <> 3 ->
  (forall script level, argv = [script; level] ->
     PyStr.endswith script ".jar" = false /\ PyStr.endswith script ".aar" = false) ->
  exists msg,
    main os argv fs = mkOut fs [] (inl (ValueError msg)) /\
    ((3 < length argv /\ msg = too_many_message (length argv)) \/
     (length argv < 2 /\ msg = unpack_message (length argv)) \/
     (exists script level, argv = [script; level] /\ msg = "Invalid jar file: " +:+ script)).
Proof.
  intros Hlen Hscript.
  destruct argv as [|a [|b [|c [|d rest]]]].
  - exists (unpack_message 0). split; [reflexivity|]. right; left. cbn; split; [lia|done].
  - exists (unpack_message 1). split; [reflexivity|]. right; left. cbn; split; [lia|done].
  - destruct (Hscript a b eq_refl) as [Hjar Haar].
    exists ("Invalid jar file: " +:+ a). split; [by apply main_other|].
    right; right. by exists a, b.
  - done.
  - exists (too_many_message (length (a :: b :: c :: d :: rest))).
    split; [reflexivity|]. left. cbn; split; [lia|done].
Qed.

(** C8. The script calls [main(sys.argv)]: [argv] is the name of the script
    followed by the positional arguments.  For a script name that ends in
    neither [.jar] nor [.aar], as the name of this script does, every number
    of positional arguments other than two makes [main] raise a [ValueError]
    with an empty trace (no archive opened, no directory made, no command
    run) and the file system as before: the error of line 17 for more than
    two, the error of the unpacking of [argv[-2:]] for none, and for one the
    invalid-jar-file error on the script name. *)
Theorem C8_wrong_argument_count (os : OS) (script : string) (args : list string) (fs : FS) :
  PyStr.endswith script ".jar" = false ->
  PyStr.endswith script ".aar" = false ->
  length args <> 2 ->
  exists msg,
    main os (script :: args) fs = mkOut fs [] (inl (ValueError msg)) /\
    ((2 < length args /\ msg = too_many_message (length (script :: args))) \/
     (args = [] /\ msg = unpack_message 1) \/
     (exists arg, args = [arg] /\ msg = "Invalid jar file: " +:+ script)).
Proof.
  intros Hjar Haar Hcount.
  destruct (wrong_count_raises os (script :: args) fs) as (msg & Hmain & Hmsg).
  - cbn [length]. lia.
  - intros script' level' Heq. injection Heq as <- _. done.
  - exists msg. split; [exact Hmain|].
    destruct Hmsg as [[Hlen ->]|[[Hlen ->]|(script' & level' & Heq & ->)]].
    + left. cbn [length] in Hlen. split; [lia|done].
    + right; left. destruct args as [|a args]; [done|]. cbn [length] in Hlen. lia.
    + right; right. injection Heq as <- ->. by exists level'.
Qed.

Lemma C8_wrong_argument_count_witness :
  exists msg,
    main Demo.os ("util/validate-jar-language-level.py" :: ["lib.jar"])
      (Demo.fs_of "lib.jar" [Demo.Z55]) =
      mkOut (Demo.fs_of "lib.jar" [Demo.Z55]) [] (inl (ValueError msg)) /\
    ((2 < length ["lib.jar"] /\
      msg = too_many_message (length ("util/validate-jar-language-level.py" :: ["lib.jar"]))) \/
     (["lib.jar"] = [] /\ msg = unpack_message 1) \/
     (exists arg, ["lib.jar"] = [arg] /\
        msg = "Invalid jar file: " +:+ "util/validate-jar-language-level.py")).
Proof.
  apply (C8_wrong_argument_count Demo.os "util/validate-jar-language-level.py" ["lib.jar"]).
  - reflexivity.
  - reflexivity.
  - cbn. lia.
Defined.

(** The script called with no, one and three positional arguments. *)
Example C8_runs :
  main Demo.os ["util/validate-jar-language-level.py"] (Demo.fs_of "lib.jar" [Demo.Z55]) =
    mkOut (Demo.fs_of "lib.jar" [Demo.Z55]) []
      (inl (ValueError "not enough values to unpack (expected 2, got 1)")) /\
  main Demo.os ["util/validate-jar-language-level.py"; "lib.jar"] (Demo.fs_of "lib.jar" [Demo.Z55]) =
    mkOut (Demo.fs_of "lib.jar" [Demo.Z55]) []
      (inl (ValueError "Invalid jar file: util/validate-jar-language-level.py")) /\
  main Demo.os ["util/validate-jar-language-level.py"; "lib.jar"; "52"; "53"]
    (Demo.fs_of "lib.jar" [Demo.Z55]) =
    mkOut (Demo.fs_of "lib.jar" [Demo.Z55]) []
      (inl (ValueError "Expected only two arguments but got 4")).
Proof. repeat split; vm_compute; reflexivity. Qed.

(** C10. With an [argv] of two elements, [main] takes the first element
    (the script name) as the archive path and the second (the one positional
    argument) as the expected level: for a first element ending in [.jar] it
    is the scan of the archive at that path against the second element,
    reported under that path; for one ending in [.aar] it is the [.aar]
    branch on that path; otherwise it is the invalid-jar-file error on the
    first element.  This is the run of an [argv] of three elements with the
    same last two, and neither the error of line 17 nor an unpacking error
    is raised. *)
Theorem C10_one_positional_argument (os : OS) (script level : string) (fs : FS) :
  main os [script; level] fs =
    (if PyStr.endswith script ".jar" then
       let o := _invalid_language_level os script level fs in
       mkOut (final_fs o) (trace o) (report script level (result o))
     else if PyStr.endswith script ".aar" then
       let dirpath := mkdtemp_path os fs in
       let o := extract_and_scan os script level dirpath (<[dirpath := Dir]> fs) in
       match result o with
       | inl e => mkOut (final_fs o) (EvMkdtemp dirpath :: trace o) (inl e)
       | inr lines =>
           mkOut (filter (fun kv => below dirpath (fst kv) = false) (final_fs o))
                 (EvMkdtemp dirpath :: trace o ++ [EvRmtree dirpath])
                 (report script level (inr lines))
       end
     else mkOut fs [] (inl (ValueError ("Invalid jar file: " +:+ script)))) /\
  (forall arg0, main os [script; level] fs = main os [arg0; script; level] fs) /\
  last_two [script; level] = [script; level] /\
  (forall n, result (main os [script; level] fs) <> inl (ValueError (too_many_message n))) /\
  (forall n, result (main os [script; level] fs) <> inl (ValueError (unpack_message n))).
Proof.
  split.
  { destruct (PyStr.endswith script ".jar") eqn:Hjar; [by apply main_jar|].
    destruct (PyStr.endswith script ".aar") eqn:Haar; [by apply main_aar|].
    by apply main_other. }
  split; [reflexivity|]. split; [reflexivity|].
  split; intros n; apply main_no_count_error.
Qed.

(** A script whose own name ends in [.jar], called with one positional
    argument: the script itself is scanned against the argument. *)
Example C10_script_named_jar :
  result (main Demo.os ["lib.jar"; "52"] (Demo.fs_of "lib.jar" [Demo.Y52; Demo.Z55])) =
    inl (ValueError (validation_message "lib.jar" "52" ["com/x/Z.class: 55"])) /\
  commands (trace (main Demo.os ["lib.jar"; "52"] (Demo.fs_of "lib.jar" [Demo.Y52; Demo.Z55]))) =
    [["javap"; "-cp"; "lib.jar"; "-v"; "com/x/Y"]; ["javap"; "-cp"; "lib.jar"; "-v"; "com/x/Z"]] /\
  result (main Demo.os ["lib.jar"; "55"] (Demo.fs_of "lib.jar" [Demo.Y52; Demo.Z55])) =
    inl (ValueError (validation_message "lib.jar" "55" ["com/x/Y.class: 52"])).
Proof. repeat split; vm_compute; reflexivity. Qed.

(** ** The lines of the mismatched entries *)

Section InvalidLines.

Variable os : OS.
Variable fs : FS.
Variables jar_file level : string.

Lemma invalid_lines_app infos infos' :
  invalid_lines os fs jar_file level (infos ++ infos') =
  invalid_lines os fs jar_file level infos ++ invalid_lines os fs jar_file level infos'.
Proof. unfold invalid_lines. by rewrite filter_app, fmap_app. Qed.

Lemma invalid_lines_class info v :
  is_class_entry info = true ->
  extracted_version os fs jar_file info = Some v ->
  invalid_lines os fs jar_file level [info] =
  if decide (v = level) then [] else [filename info +:+ ": " +:+ v].
Proof.
  intros Hclass Hv. unfold invalid_lines. rewrite filter_cons, filter_nil.
  unfold mismatched, report_line. rewrite Hclass, Hv. cbn [andb].
  destruct (String.eqb_spec v level) as [->|Hne]; cbn [negb];
    repeat case_decide; try done.
  rewrite fmap_cons, Hv. done.
Qed.

Lemma invalid_lines_nil infos :
  (forall info, info ∈ infos -> mismatched os fs jar_file level info = false) ->
  invalid_lines os fs jar_file level infos = [].
Proof.
  intros Hnone. unfold invalid_lines.
  induction infos as [|info infos IH]; [reflexivity|].
  rewrite filter_cons, decide_False.
  - apply IH. intros info' Hin. apply Hnone. by right.
  - rewrite Hnone; [done|]. by left.
Qed.

Lemma invalid_lines_not_nil infos info :
  info ∈ infos ->
  mismatched os fs jar_file level info = true ->
  invalid_lines os fs jar_file level infos <> [].
Proof.
  intros Hin Hmis Hnil.
  assert (Hline : report_line os fs jar_file info ∈ invalid_lines os fs jar_file level infos).
  { unfold invalid_lines. apply list_elem_of_fmap_2. by apply list_elem_of_filter. }
  rewrite Hnil in Hline. by apply elem_of_nil in Hline.
Qed.

(** The scan of a readable archive whose classes all disassemble. *)
Lemma invalid_language_level_result members :
  fs !! jar_file = Some (File (Archive members)) ->
  all_extracted os fs jar_file (infolist members) ->
  result (_invalid_language_level os jar_file level fs) =
  inr (invalid_lines os fs jar_file level (infolist members)).
Proof.
  intros Hfile Hall. rewrite (invalid_language_level_archive os _ _ _ _ Hfile).
  cbn [result]. by rewrite scan_all_extracted.
Qed.

End InvalidLines.

(** ** Validation of a jar *)

(** C2. A [.jar] whose class entries all disassemble to exactly the
    expected level: [main] returns without raising, and the file system is
    as before. *)
Theorem C2_all_versions_match (os : OS) (argv : list string) (jar_file level : string)
    (fs : FS) (members : list (ZipInfo * file)) :
  length argv <= 3 ->
  last_two argv = [jar_file; level] ->
  PyStr.endswith jar_file ".jar" = true ->
  fs !! jar_file = Some (File (Archive members)) ->
  (forall info, info ∈ infolist members -> is_class_entry info = true ->
     extracted_version os fs jar_file info = Some level) ->
  result (main os argv fs) = inr tt /\ final_fs (main os argv fs) = fs.
Proof.
  intros Hlen Hlast Hjar Hfile Hsame.
  rewrite (main_unpacked os argv jar_file level fs Hlen Hlast), main_jar by done.
  cbn [result final_fs]. rewrite invalid_language_level_final_fs.
  rewrite (invalid_language_level_result os fs jar_file level members Hfile).
  - rewrite invalid_lines_nil; [done|].
    intros info Hin. unfold mismatched.
    destruct (is_class_entry info) eqn:Hclass; [|done].
    rewrite (Hsame info Hin Hclass). cbn [andb]. by rewrite String.eqb_refl.
  - apply Forall_forall. intros info Hin Hclass. rewrite (Hsame info Hin Hclass). by eexists.
Qed.

Lemma C2_all_versions_match_witness :
  result (main Demo.os ["validate.py"; "lib.jar"; "52"]
            (Demo.fs_of "lib.jar" [Demo.folder "com/"; Demo.Y52; Demo.shaded55])) = inr tt /\
  final_fs (main Demo.os ["validate.py"; "lib.jar"; "52"]
              (Demo.fs_of "lib.jar" [Demo.folder "com/"; Demo.Y52; Demo.shaded55])) =
    Demo.fs_of "lib.jar" [Demo.folder "com/"; Demo.Y52; Demo.shaded55].
Proof.
  apply (C2_all_versions_match Demo.os ["validate.py"; "lib.jar"; "52"] "lib.jar" "52"
           (Demo.fs_of "lib.jar" [Demo.folder "com/"; Demo.Y52; Demo.shaded55])
           [Demo.folder "com/"; Demo.Y52; Demo.shaded55]).
  - cbn. lia.
  - reflexivity.
  - reflexivity.
  - reflexivity.
  - intros info Hin Hclass.
    repeat (apply elem_of_cons in Hin as [->|Hin]);
      [discriminate Hclass|reflexivity|discriminate Hclass|by apply elem_of_nil in Hin].
Defined.

(** C1, as stated, fails: next to a class of another version, a class whose
    disassembly shows the pattern twice makes the run end with the parse
    error, which is not the validation error. *)
Lemma C1_counterexample :
  let fs := Demo.fs_of "lib.jar" [Demo.Z55; Demo.twice] in
  (exists info v,
     info ∈ infolist [Demo.Z55; Demo.twice] /\ is_class_entry info = true /\
     extracted_version Demo.os fs "lib.jar" info = Some v /\ v <> "52") /\
  result (main Demo.os ["validate.py"; "lib.jar"; "52"] fs) =
    inl (ValueError "Expected exactly one match but found: ['52', '1']") /\
  (forall lines, result (main Demo.os ["validate.py"; "lib.jar"; "52"] fs) <>
     inl (ValueError (validation_message "lib.jar" "52" lines))).
Proof.
  cbv zeta.
  assert (Hrun : result (main Demo.os ["validate.py"; "lib.jar"; "52"]
                           (Demo.fs_of "lib.jar" [Demo.Z55; Demo.twice])) =
                 inl (ValueError (parse_message ["52"; "1"]))) by (vm_compute; reflexivity).
  split; [|split].
  - exists (fst Demo.Z55), "55". split; [by left|]. split; [reflexivity|]. split; [|done].
    vm_compute. reflexivity.
  - rewrite Hrun. reflexivity.
  - intros lines. rewrite Hrun. intros H.
    apply (validation_not_parse "lib.jar" "52" lines ["52"; "1"]). congruence.
Qed.

(** C1, amended. A [.jar] whose class entries all disassemble to exactly one
    version, one of them to another version than the expected level: [main]
    raises the [ValueError] whose text is made of the archive path, the
    expected level and the lines [name: version] of the entries with another
    version, in stored order, joined by a newline and four spaces. *)
Theorem C1_validation_error (os : OS) (argv : list string) (jar_file level : string)
    (fs : FS) (members : list (ZipInfo * file)) :
  length argv <= 3 ->
  last_two argv = [jar_file; level] ->
  PyStr.endswith jar_file ".jar" = true ->
  fs !! jar_file = Some (File (Archive members)) ->
  all_extracted os fs jar_file (infolist members) ->
  (exists info v,
     info ∈ infolist members /\ is_class_entry info = true /\
     extracted_version os fs jar_file info = Some v /\ v <> level) ->
  invalid_lines os fs jar_file level (infolist members) <> [] /\
  result (main os argv fs) =
    inl (ValueError
           (validation_message jar_file level
              (invalid_lines os fs jar_file level (infolist members)))).
Proof.
  intros Hlen Hlast Hjar Hfile Hall (info & v & Hin & Hclass & Hv & Hne).
  assert (Hlines : invalid_lines os fs jar_file level (infolist members) <> []).
  { apply (invalid_lines_not_nil os fs jar_file level _ info Hin).
    unfold mismatched. rewrite Hclass, Hv. cbn [andb].
    by destruct (String.eqb_spec v level). }
  split; [exact Hlines|].
  rewrite (main_unpacked os argv jar_file level fs Hlen Hlast), main_jar by done.
  cbn [result]. rewrite (invalid_language_level_result os fs jar_file level members Hfile Hall).
  by destruct (invalid_lines os fs jar_file level (infolist members)).
Qed.

Lemma C1_validation_error_witness :
  invalid_lines Demo.os (Demo.fs_of "lib.jar" [Demo.Y52; Demo.Z55; Demo.W49]) "lib.jar" "52"
    (infolist [Demo.Y52; Demo.Z55; Demo.W49]) <> [] /\
  result (main Demo.os ["validate.py"; "lib.jar"; "52"]
            (Demo.fs_of "lib.jar" [Demo.Y52; Demo.Z55; Demo.W49])) =
    inl (ValueError
           (validation_message "lib.jar" "52"
              (invalid_lines Demo.os (Demo.fs_of "lib.jar" [Demo.Y52; Demo.Z55; Demo.W49])
                 "lib.jar" "52" (infolist [Demo.Y52; Demo.Z55; Demo.W49])))).
Proof.
  apply (C1_validation_error Demo.os ["validate.py"; "lib.jar"; "52"] "lib.jar" "52"
           (Demo.fs_of "lib.jar" [Demo.Y52; Demo.Z55; Demo.W49])
           [Demo.Y52; Demo.Z55; Demo.W49]).
  - cbn. lia.
  - reflexivity.
  - reflexivity.
  - reflexivity.
  - repeat constructor; intros _; vm_compute; eexists; reflexivity.
  - exists (fst Demo.Z55), "55". split; [right; left|]. split; [reflexivity|].
    split; [vm_compute; reflexivity|discriminate].
Defined.

(** The lines and the text of the witness of C1, evaluated. *)
Example C1_lines :
  invalid_lines Demo.os (Demo.fs_of "lib.jar" [Demo.Y52; Demo.Z55; Demo.W49]) "lib.jar" "52"
    (infolist [Demo.Y52; Demo.Z55; Demo.W49]) = ["com/x/Z.class: 55"; "com/x/W.class: 49"] /\
  validation_message "lib.jar" "52" ["com/x/Z.class: 55"; "com/x/W.class: 49"] =
    "Found invalid entries in lib.jar that do not match the expected java language level (52):" +:+
    PyStr.newline +:+ "    com/x/Z.class: 55" +:+ PyStr.newline +:+ "    com/x/W.class: 49".
Proof. split; vm_compute; reflexivity. Qed.

(** C6. In a [.jar] whose class entries all disassemble to exactly one
    version, a class entry adds its line [name: version] to the invalid
    entries when its version is another string than the expected level and
    adds nothing when it is the same string; the lines of the entries before
    it and after it stand around it. *)
Theorem C6_exact_string_comparison (os : OS) (jar_file level : string) (fs : FS)
    (before after : list (ZipInfo * file)) (info : ZipInfo) (content : file) (v : string) :
  fs !! jar_file = Some (File (Archive (before ++ (info, content) :: after))) ->
  all_extracted os fs jar_file (infolist (before ++ (info, content) :: after)) ->
  is_class_entry info = true ->
  extracted_version os fs jar_file info = Some v ->
  result (_invalid_language_level os jar_file level fs) =
  inr (invalid_lines os fs jar_file level (infolist before) ++
       (if decide (v = level) then [] else [filename info +:+ ": " +:+ v]) ++
       invalid_lines os fs jar_file level (infolist after)).
Proof.
  intros Hfile Hall Hclass Hv.
  rewrite (invalid_language_level_result os fs jar_file level _ Hfile Hall).
  unfold infolist. rewrite fmap_app, fmap_cons. cbn [fst].
  rewrite invalid_lines_app.
  change (info :: (fst <$> after)) with ([info] ++ (fst <$> after)).
  by rewrite invalid_lines_app, (invalid_lines_class os fs jar_file level info v Hclass Hv).
Qed.

(** The expected level [052] is another string than the version [52]. *)
Lemma C6_exact_string_comparison_witness :
  result (_invalid_language_level Demo.os "lib.jar" "052"
            (Demo.fs_of "lib.jar" ([Demo.Z55] ++ Demo.Y52 :: [Demo.folder "com/"]))) =
  inr (invalid_lines Demo.os (Demo.fs_of "lib.jar" ([Demo.Z55] ++ Demo.Y52 :: [Demo.folder "com/"]))
         "lib.jar" "052" (infolist [Demo.Z55]) ++
       (if decide ("52" = "052") then [] else [filename (fst Demo.Y52) +:+ ": " +:+ "52"]) ++
       invalid_lines Demo.os (Demo.fs_of "lib.jar" ([Demo.Z55] ++ Demo.Y52 :: [Demo.folder "com/"]))
         "lib.jar" "052" (infolist [Demo.folder "com/"])).
Proof.
  apply (C6_exact_string_comparison Demo.os "lib.jar" "052"
           (Demo.fs_of "lib.jar" ([Demo.Z55] ++ Demo.Y52 :: [Demo.folder "com/"]))
           [Demo.Z55] [Demo.folder "com/"] (fst Demo.Y52) (snd Demo.Y52) "52").
  - reflexivity.
  - repeat constructor; intros Hclass; vm_compute in Hclass |- *;
      first [discriminate Hclass | eexists; reflexivity].
  - reflexivity.
  - vm_compute. reflexivity.
Defined.

Example C6_leading_zero :
  result (_invalid_language_level Demo.os "lib.jar" "052" (Demo.fs_of "lib.jar" [Demo.Y52])) =
    inr ["com/x/Y.class: 52"] /\
  result (_invalid_language_level Demo.os "lib.jar" "52" (Demo.fs_of "lib.jar" [Demo.Y52])) =
    inr [].
Proof. split; vm_compute; reflexivity. Qed.

(** ** Entries the scan passes over *)

Lemma is_class_entry_false (info : ZipInfo) :
  is_class_entry info = false <->
  is_dir info = true \/
  PyStr.endswith (filename info) ".class" = false \/
  PyStr.startswith (filename info) "dagger/spi/internal/shaded/" = true \/
  PyStr.startswith (filename info) "dagger/grpc/shaded/" = true.
Proof.
  unfold is_class_entry, ignore_entry, ignore_entries_prefix. cbn [existsb].
  destruct (is_dir info), (PyStr.endswith (filename info) ".class"),
    (PyStr.startswith (filename info) "dagger/spi/internal/shaded/"),
    (PyStr.startswith (filename info) "dagger/grpc/shaded/"); cbn; intuition congruence.
Qed.

Section Erasure.

Variable os : OS.
Variables jar_file level : string.
Variable fs : FS.

(** An entry that is no class entry can be taken out of the list: the
    result and the commands of the scan stay. *)
Lemma scan_erase info after :
  is_class_entry info = false ->
  forall before n i n' i' inv u u',
    result (scan_entries os jar_file level n i (before ++ info :: after) inv u fs) =
    result (scan_entries os jar_file level n' i' (before ++ after) inv u' fs) /\
    commands (trace (scan_entries os jar_file level n i (before ++ info :: after) inv u fs)) =
    commands (trace (scan_entries os jar_file level n' i' (before ++ after) inv u' fs)).
Proof.
  intros Hskip. induction before as [|a before IH]; intros n i n' i' inv u u'; cbn [app].
  - rewrite (scan_skip os jar_file level n i info after inv u fs Hskip).
    cbn [result trace]. rewrite commands_cons. apply scan_counters.
  - destruct (is_class_entry a) eqn:Hclass.
    + destruct (extracted_version os fs jar_file a) as [v|] eqn:Hv.
      * rewrite !(scan_class _ _ _ _ _ _ _ _ _ _ _ Hclass Hv). cbn [result trace].
        rewrite !commands_cons.
        destruct (IH n (S i) n' (S i')
                    (if String.eqb v level then inv else inv ++ [filename a +:+ ": " +:+ v])
                    ({[v]} ∪ u) ({[v]} ∪ u')) as [-> ->]. done.
      * by rewrite !(scan_abort _ _ _ _ _ _ _ _ _ _ Hclass Hv).
    + rewrite !(scan_skip _ _ _ _ _ _ _ _ _ _ Hclass). cbn [result trace].
      rewrite !commands_cons. apply IH.
Qed.

End Erasure.

(** C3. A member that is a directory, or has a name that does not end in
    [.class], or has a name that starts with one of the two ignored
    prefixes, whatever its content: the scan of the archive has the result
    and runs the commands, in order, of a scan of the other members alone. *)
Theorem C3_ignored_entries (os : OS) (jar_file level : string) (fs : FS)
    (before after : list (ZipInfo * file)) (info : ZipInfo) (content : file) :
  is_dir info = true \/
  PyStr.endswith (filename info) ".class" = false \/
  PyStr.startswith (filename info) "dagger/spi/internal/shaded/" = true \/
  PyStr.startswith (filename info) "dagger/grpc/shaded/" = true ->
  fs !! jar_file = Some (File (Archive (before ++ (info, content) :: after))) ->
  result (_invalid_language_level os jar_file level fs) =
    result (scan_entries os jar_file level (length (before ++ after)) 0
              (infolist (before ++ after)) [] ∅ fs) /\
  commands (trace (_invalid_language_level os jar_file level fs)) =
    commands (trace (scan_entries os jar_file level (length (before ++ after)) 0
                       (infolist (before ++ after)) [] ∅ fs)).
Proof.
  intros Hskip Hfile. apply is_class_entry_false in Hskip.
  rewrite (invalid_language_level_archive os _ _ _ _ Hfile). cbn [result trace].
  rewrite commands_cons. unfold infolist. rewrite !fmap_app, fmap_cons. cbn [fst].
  by apply scan_erase.
Qed.

Lemma C3_ignored_entries_witness :
  result (_invalid_language_level Demo.os "lib.jar" "52"
            (Demo.fs_of "lib.jar" ([Demo.Y52] ++ Demo.shaded55 :: [Demo.Z55]))) =
    result (scan_entries Demo.os "lib.jar" "52" (length ([Demo.Y52] ++ [Demo.Z55])) 0
              (infolist ([Demo.Y52] ++ [Demo.Z55])) [] ∅
              (Demo.fs_of "lib.jar" ([Demo.Y52] ++ Demo.shaded55 :: [Demo.Z55]))) /\
  commands (trace (_invalid_language_level Demo.os "lib.jar" "52"
                     (Demo.fs_of "lib.jar" ([Demo.Y52] ++ Demo.shaded55 :: [Demo.Z55])))) =
    commands (trace (scan_entries Demo.os "lib.jar" "52" (length ([Demo.Y52] ++ [Demo.Z55])) 0
                       (infolist ([Demo.Y52] ++ [Demo.Z55])) [] ∅
                       (Demo.fs_of "lib.jar" ([Demo.Y52] ++ Demo.shaded55 :: [Demo.Z55])))).
Proof.
  apply (C3_ignored_entries Demo.os "lib.jar" "52"
           (Demo.fs_of "lib.jar" ([Demo.Y52] ++ Demo.shaded55 :: [Demo.Z55]))
           [Demo.Y52] [Demo.Z55] (fst Demo.shaded55) (snd Demo.shaded55)).
  - right; right; right. reflexivity.
  - reflexivity.
Defined.

(** The shaded class of another version is neither disassembled nor
    reported. *)
Example C3_shaded :
  result (_invalid_language_level Demo.os "lib.jar" "52"
            (Demo.fs_of "lib.jar" [Demo.Y52; Demo.shaded55; Demo.folder "com/x/"])) = inr [] /\
  commands (trace (_invalid_language_level Demo.os "lib.jar" "52"
                     (Demo.fs_of "lib.jar" [Demo.Y52; Demo.shaded55; Demo.folder "com/x/"]))) =
    [["javap"; "-cp"; "lib.jar"; "-v"; "com/x/Y"]].
Proof. split; vm_compute; reflexivity. Qed.

(** ** A class that shows no version, or several *)

Section ParseError.

Variable os : OS.
Variables jar_file level : string.
Variable fs : FS.

Lemma scan_parse_error n i info infos inv u stdout :
  is_class_entry info = true ->
  disassembly os fs jar_file info = Some stdout ->
  length (Re.findall stdout) <> 1 ->
  scan_entries os jar_file level n i (info :: infos) inv u fs =
  mkOut fs [EvPrint jar_file (i + 1) n level u; EvRun (javap_cmd jar_file info)]
    (inl (ValueError (parse_message (Re.findall stdout)))).
Proof.
  intros Hclass Hout Hlen.
  assert (Hv : extracted_version os fs jar_file info = None).
  { unfold extracted_version. rewrite Hout. cbn.
    by destruct (Re.findall stdout) as [|v [|]]. }
  rewrite (scan_abort os jar_file level n i info infos inv u fs Hclass Hv).
  unfold disassembly in Hout.
  destruct (run_process os fs (javap_cmd jar_file info)) as [rc out|]; [|done].
  destruct (rc =? 0)%Z; [|done]. by injection Hout as ->.
Qed.

(** The scan runs the classes before the failing one, then the failing
    one, and stops there. *)
Lemma scan_stops info after stdout :
  is_class_entry info = true ->
  disassembly os fs jar_file info = Some stdout ->
  length (Re.findall stdout) <> 1 ->
  forall before n i inv u,
    all_extracted os fs jar_file before ->
    result (scan_entries os jar_file level n i (before ++ info :: after) inv u fs) =
      inl (ValueError (parse_message (Re.findall stdout))) /\
    last (trace (scan_entries os jar_file level n i (before ++ info :: after) inv u fs)) =
      Some (EvRun (javap_cmd jar_file info)) /\
    commands (trace (scan_entries os jar_file level n i (before ++ info :: after) inv u fs)) =
      (javap_cmd jar_file <$> filter (fun a => is_class_entry a = true) before) ++
      [javap_cmd jar_file info].
Proof.
  intros Hclass Hout Hlen.
  induction before as [|a before IH]; intros n i inv u Hall; cbn [app].
  - by rewrite (scan_parse_error n i info after inv u stdout Hclass Hout Hlen).
  - apply Forall_cons in Hall as [Ha Hall]. rewrite filter_cons.
    destruct (is_class_entry a) eqn:Hclass_a.
    + destruct (Ha eq_refl) as [v Hv].
      rewrite (scan_class os jar_file level n i a _ inv u fs v Hclass_a Hv).
      cbn [result trace]. rewrite !commands_cons, !last_cons.
      destruct (IH n (S i) (if String.eqb v level then inv
                            else inv ++ [filename a +:+ ": " +:+ v])
                  ({[v]} ∪ u) Hall) as (-> & -> & ->).
      by rewrite decide_True.
    + rewrite (scan_skip os jar_file level n i a _ inv u fs Hclass_a).
      cbn [result trace]. rewrite commands_cons, last_cons.
      destruct (IH n (S i) inv u Hall) as (-> & -> & ->).
      by rewrite decide_False.
Qed.

End ParseError.

(** C4. In an archive, a class entry whose disassembly shows the pattern
    zero times or more than once, after entries that disassemble to exactly
    one version: the scan raises the parse error with the matches it found,
    the last effect of the scan is the run of the disassembler on this
    entry, and the commands run are those of the class entries up to this
    one.  [main] on a [.jar] ends with the same error and the same last
    effect.  The parse error is not a validation error. *)
Theorem C4_parse_error_aborts (os : OS) (jar_file level : string) (fs : FS)
    (members : list (ZipInfo * file)) (before after : list ZipInfo) (info : ZipInfo)
    (stdout : string) :
  fs !! jar_file = Some (File (Archive members)) ->
  infolist members = before ++ info :: after ->
  all_extracted os fs jar_file before ->
  is_class_entry info = true ->
  disassembly os fs jar_file info = Some stdout ->
  length (Re.findall stdout) <> 1 ->
  (result (_invalid_language_level os jar_file level fs) =
     inl (ValueError (parse_message (Re.findall stdout))) /\
   last (trace (_invalid_language_level os jar_file level fs)) =
     Some (EvRun (javap_cmd jar_file info)) /\
   commands (trace (_invalid_language_level os jar_file level fs)) =
     (javap_cmd jar_file <$> filter (fun a => is_class_entry a = true) before) ++
     [javap_cmd jar_file info]) /\
  (forall argv,
     length argv <= 3 -> last_two argv = [jar_file; level] ->
     PyStr.endswith jar_file ".jar" = true ->
     result (main os argv fs) = inl (ValueError (parse_message (Re.findall stdout))) /\
     last (trace (main os argv fs)) = Some (EvRun (javap_cmd jar_file info))) /\
  (forall path lines,
     parse_message (Re.findall stdout) <> validation_message path level lines).
Proof.
  intros Hfile Hinfos Hall Hclass Hout Hlen.
  assert (Hscan :
    result (_invalid_language_level os jar_file level fs) =
      inl (ValueError (parse_message (Re.findall stdout))) /\
    last (trace (_invalid_language_level os jar_file level fs)) =
      Some (EvRun (javap_cmd jar_file info)) /\
    commands (trace (_invalid_language_level os jar_file level fs)) =
      (javap_cmd jar_file <$> filter (fun a => is_class_entry a = true) before) ++
      [javap_cmd jar_file info]).
  { rewrite (invalid_language_level_archive os _ _ _ _ Hfile). cbn [result trace].
    rewrite commands_cons, last_cons, Hinfos.
    destruct (scan_stops os jar_file level fs info after stdout Hclass Hout Hlen
                before (length (before ++ info :: after)) 0 [] ∅ Hall) as (-> & -> & ->).
    done. }
  split; [exact Hscan|]. split.
  - intros argv Hargv Hlast Hjar.
    rewrite (main_unpacked os argv jar_file level fs Hargv Hlast), main_jar by done.
    cbn [result trace]. destruct Hscan as (-> & -> & _). done.
  - intros path lines H. symmetry in H. by apply validation_not_parse in H.
Qed.

Lemma C4_parse_error_aborts_witness :
  (result (_invalid_language_level Demo.os "lib.jar" "52"
             (Demo.fs_of "lib.jar" [Demo.Z55; Demo.broken; Demo.W49])) =
     inl (ValueError (parse_message (Re.findall Demo.no_version))) /\
   last (trace (_invalid_language_level Demo.os "lib.jar" "52"
                  (Demo.fs_of "lib.jar" [Demo.Z55; Demo.broken; Demo.W49]))) =
     Some (EvRun (javap_cmd "lib.jar" (fst Demo.broken))) /\
   commands (trace (_invalid_language_level Demo.os "lib.jar" "52"
                      (Demo.fs_of "lib.jar" [Demo.Z55; Demo.broken; Demo.W49]))) =
     (javap_cmd "lib.jar" <$> filter (fun a => is_class_entry a = true) [fst Demo.Z55]) ++
     [javap_cmd "lib.jar" (fst Demo.broken)]) /\
  (forall argv,
     length argv <= 3 -> last_two argv = ["lib.jar"; "52"] ->
     PyStr.endswith "lib.jar" ".jar" = true ->
     result (main Demo.os argv (Demo.fs_of "lib.jar" [Demo.Z55; Demo.broken; Demo.W49])) =
       inl (ValueError (parse_message (Re.findall Demo.no_version))) /\
     last (trace (main Demo.os argv (Demo.fs_of "lib.jar" [Demo.Z55; Demo.broken; Demo.W49]))) =
       Some (EvRun (javap_cmd "lib.jar" (fst Demo.broken)))) /\
  (forall path lines,
     parse_message (Re.findall Demo.no_version) <> validation_message path "52" lines).
Proof.
  apply (C4_parse_error_aborts Demo.os "lib.jar" "52"
           (Demo.fs_of "lib.jar" [Demo.Z55; Demo.broken; Demo.W49])
           [Demo.Z55; Demo.broken; Demo.W49] [fst Demo.Z55] [fst Demo.W49] (fst Demo.broken)
           Demo.no_version).
  - reflexivity.
  - reflexivity.
  - repeat constructor; intros _; vm_compute; eexists; reflexivity.
  - reflexivity.
  - vm_compute. reflexivity.
  - vm_compute. lia.
Defined.

(** The run of the witness of C4, evaluated: the class after the failing one
    is not disassembled. *)
Example C4_run :
  result (main Demo.os ["validate.py"; "lib.jar"; "52"]
            (Demo.fs_of "lib.jar" [Demo.Z55; Demo.broken; Demo.W49])) =
    inl (ValueError "Expected exactly one match but found: []") /\
  commands (trace (main Demo.os ["validate.py"; "lib.jar"; "52"]
                     (Demo.fs_of "lib.jar" [Demo.Z55; Demo.broken; Demo.W49]))) =
    [["javap"; "-cp"; "lib.jar"; "-v"; "com/x/Z"]; ["javap"; "-cp"; "lib.jar"; "-v"; "com/x/B"]].
Proof. split; vm_compute; reflexivity. Qed.

(** ** Android archives *)

Section Aar.

Variable os : OS.
Variables jar_file level dirpath : string.


(** Whatever the block does, the scratch directory is still there after
    it. *)
Lemma extract_and_scan_keeps_dirpath fs :
  fs !! dirpath = Some Dir ->
  final_fs (extract_and_scan os jar_file level dirpath fs) !! dirpath = Some Dir.
Proof.
  intros Hdir.
  unfold extract_and_scan, mbind at 1, M_bind at 1, ZipFile. cbn [result final_fs trace].
  destruct (fs !! jar_file) as [[|[bytes|members]]|]; cbn [final_fs]; try exact Hdir.
  unfold mbind at 1, M_bind at 1, extract.
  destruct (getinfo members "classes.jar") as [[info content]|];
    cbn [result final_fs trace raise]; [|exact Hdir].
  rewrite invalid_language_level_final_fs.
  rewrite lookup_insert_ne by apply extracted_not_dirpath. exact Hdir.
Qed.

End Aar.

Lemma below_self (path : string) : below path path = true.
Proof. unfold below. by rewrite String.eqb_refl. Qed.





(** The runs of the witness of C5, evaluated: on the [.aar], on the file
    written to the scratch directory, and on a copy of the nested archive
    elsewhere. *)
Example C5_runs :
  let fs := Demo.fs_of "lib.aar" [(mkZipInfo "classes.jar" false, Archive [Demo.Y52; Demo.Z55])] in
  let extracted :=
    <["/tmp/tmpq3x/classes.jar" := File (Archive [Demo.Y52; Demo.Z55])]> (<["/tmp/tmpq3x" := Dir]> fs) in
  result (_invalid_language_level Demo.os "/tmp/tmpq3x/classes.jar" "52" extracted) =
    inr ["com/x/Z.class: 55"] /\
  result (main Demo.os ["validate.py"; "lib.aar"; "52"] fs) =
    inl (ValueError (validation_message "lib.aar" "52" ["com/x/Z.class: 55"])) /\
  result (main Demo.os ["validate.py"; "/tmp/tmpq3x/classes.jar"; "52"] extracted) =
    inl (ValueError (validation_message "/tmp/tmpq3x/classes.jar" "52" ["com/x/Z.class: 55"])) /\
  result (main Demo.os ["validate.py"; "classes.jar"; "52"]
            (Demo.fs_of "classes.jar" [Demo.Y52; Demo.Z55])) =
    inl (ValueError (validation_message "classes.jar" "52" ["com/x/Z.class: 55"])).
Proof. cbv zeta. repeat split; vm_compute; reflexivity. Qed.

(** The stand-in disassembler answers by the content of the archive: the
    copy elsewhere disassembles as the written file does. *)
Example C5_same_disassembly :
  let fs := Demo.fs_of "lib.aar" [(mkZipInfo "classes.jar" false, Archive [Demo.Y52; Demo.Z55])] in
  let extracted :=
    <["/tmp/tmpq3x/classes.jar" := File (Archive [Demo.Y52; Demo.Z55])]> (<["/tmp/tmpq3x" := Dir]> fs) in
  Forall (fun entry =>
            disassembly Demo.os (Demo.fs_of "classes.jar" [Demo.Y52; Demo.Z55]) "classes.jar" entry =
            disassembly Demo.os extracted "/tmp/tmpq3x/classes.jar" entry)
         (infolist [Demo.Y52; Demo.Z55]).
Proof. cbv zeta. repeat constructor; vm_compute; reflexivity. Qed.

(** C9. For an [.aar], with [dirpath] the directory [mkdtemp] made: when the
    block of lines 26-28 (opening the archive, extracting [classes.jar],
    scanning it) returns, nothing is left at [dirpath] or below it when
    [main] ends, also when [main] then raises the validation error; when the
    block raises, [main] ends with that error and [dirpath] is still a
    directory. *)
Theorem C9_scratch_directory (os : OS) (argv : list string) (jar_file level : string) (fs : FS) :
  length argv <= 3 ->
  last_two argv = [jar_file; level] ->
  PyStr.endswith jar_file ".aar" = true ->
  let dirpath := mkdtemp_path os fs in
  let block := extract_and_scan os jar_file level dirpath (<[dirpath := Dir]> fs) in
  (forall lines,
     result block = inr lines ->
     result (main os argv fs) = report jar_file level (inr lines) /\
     final_fs (main os argv fs) !! dirpath = None /\
     (forall p, below dirpath p = true -> final_fs (main os argv fs) !! p = None)) /\
  (forall e,
     result block = inl e ->
     result (main os argv fs) = inl e /\
     final_fs (main os argv fs) !! dirpath = Some Dir).
Proof.
  intros Hlen Hlast Haar dirpath block.
  rewrite (main_unpacked os argv jar_file level fs Hlen Hlast).
  rewrite main_aar by auto using endswith_aar_not_jar. cbv zeta.
  fold dirpath block. split.
  - intros lines Hblock. rewrite Hblock. cbn [result final_fs].
    assert (Hgone : forall p, below dirpath p = true ->
              filter (fun kv : string * node => below dirpath (fst kv) = false)
                (final_fs block) !! p = None).
    { intros p Hp. apply map_lookup_filter_None. right. intros x _. cbn. by rewrite Hp. }
    split; [done|]. split; [|exact Hgone]. apply Hgone, below_self.
  - intros e Hblock. rewrite Hblock. cbn [result final_fs]. split; [done|].
    apply extract_and_scan_keeps_dirpath, lookup_insert_eq.
Qed.

Lemma C9_scratch_directory_witness :
  let fs := Demo.fs_of "lib.aar" [(mkZipInfo "classes.jar" false, Archive [Demo.Y52; Demo.broken])] in
  let dirpath := mkdtemp_path Demo.os fs in
  let block := extract_and_scan Demo.os "lib.aar" "52" dirpath (<[dirpath := Dir]> fs) in
  (forall lines,
     result block = inr lines ->
     result (main Demo.os ["validate.py"; "lib.aar"; "52"] fs) = report "lib.aar" "52" (inr lines) /\
     final_fs (main Demo.os ["validate.py"; "lib.aar"; "52"] fs) !! dirpath = None /\
     (forall p, below dirpath p = true ->
        final_fs (main Demo.os ["validate.py"; "lib.aar"; "52"] fs) !! p = None)) /\
  (forall e,
     result block = inl e ->
     result (main Demo.os ["validate.py"; "lib.aar"; "52"] fs) = inl e /\
     final_fs (main Demo.os ["validate.py"; "lib.aar"; "52"] fs) !! dirpath = Some Dir).
Proof.
  apply (C9_scratch_directory Demo.os ["validate.py"; "lib.aar"; "52"] "lib.aar" "52"
           (Demo.fs_of "lib.aar" [(mkZipInfo "classes.jar" false, Archive [Demo.Y52; Demo.broken])])).
  - cbn. lia.
  - reflexivity.
  - reflexivity.
Defined.

(** Two runs on an [.aar], evaluated: the scratch directory is gone after a
    scan that returned and left after a scan that raised. *)
Example C9_runs :
  let good := Demo.fs_of "lib.aar" [(mkZipInfo "classes.jar" false, Archive [Demo.Y52; Demo.Z55])] in
  let bad := Demo.fs_of "lib.aar" [(mkZipInfo "classes.jar" false, Archive [Demo.Y52; Demo.broken])] in
  (result (main Demo.os ["validate.py"; "lib.aar"; "52"] good) =
     inl (ValueError (validation_message "lib.aar" "52" ["com/x/Z.class: 55"])) /\
   final_fs (main Demo.os ["validate.py"; "lib.aar"; "52"] good) !! "/tmp/tmpq3x" = None /\
   final_fs (main Demo.os ["validate.py"; "lib.aar"; "52"] good) !! "/tmp/tmpq3x/classes.jar" = None) /\
  (result (main Demo.os ["validate.py"; "lib.aar"; "52"] bad) =
     inl (ValueError "Expected exactly one match but found: []") /\
   final_fs (main Demo.os ["validate.py"; "lib.aar"; "52"] bad) !! "/tmp/tmpq3x" = Some Dir /\
   final_fs (main Demo.os ["validate.py"; "lib.aar"; "52"] bad) !! "/tmp/tmpq3x/classes.jar" =
     Some (File (Archive [Demo.Y52; Demo.broken]))).
Proof. cbv zeta. repeat split; vm_compute; reflexivity. Qed.

(** * Further properties of the script *)

(** ** What [main] does with [argv] *)

(** [main] ends on the argument count, or goes on with the last two
    elements. *)
Lemma main_cases (os : OS) (argv : list string) (fs : FS) :
  (exists msg, main os argv fs = mkOut fs [] (inl (ValueError msg))) \/
  (exists jar_file level,
     length argv <= 3 /\ last_two argv = [jar_file; level] /\
     main os argv fs = main os [jar_file; level] fs).
Proof.
  destruct argv as [|a [|b [|c [|d rest]]]].
  - left. by eexists.
  - left. by eexists.
  - right. exists a, b. cbn. split; [lia|done].
  - right. exists b, c. cbn. split; [lia|done].
  - left. by eexists.
Qed.

(** X1. Unless the last two elements of [argv] name an [.aar], [main] leaves
    the file system as it was, whatever the outcome: the scan of a [.jar]
    only reads. *)
Theorem X1_jar_run_reads_only (os : OS) (argv : list string) (fs : FS) :
  (forall jar_file level, last_two argv = [jar_file; level] ->
     PyStr.endswith jar_file ".aar" = false) ->
  final_fs (main os argv fs) = fs.
Proof.
  intros Hnot_aar.
  destruct (main_cases os argv fs) as [[msg ->]|(jar_file & level & Hlen & Hlast & ->)]; [done|].
  destruct (PyStr.endswith jar_file ".jar") eqn:Hjar.
  - rewrite main_jar by done. cbn [final_fs]. apply invalid_language_level_final_fs.
  - by rewrite main_other by eauto.
Qed.

Lemma X1_jar_run_reads_only_witness :
  final_fs (main Demo.os ["validate.py"; "lib.jar"; "52"]
              (Demo.fs_of "lib.jar" [Demo.Y52; Demo.Z55; Demo.broken])) =
  Demo.fs_of "lib.jar" [Demo.Y52; Demo.Z55; Demo.broken].
Proof.
  apply (X1_jar_run_reads_only Demo.os ["validate.py"; "lib.jar"; "52"]).
  intros jar_file level H. injection H as <- <-. reflexivity.
Defined.

(** X2. A [.jar] path at which there is no zip archive: [main] raises what
    [ZipFile] raises (no such file, a directory, not a zip file); opening
    the path is its only effect, and the disassembler is not run. *)
Theorem X2_unreadable_archive (os : OS) (argv : list string) (jar_file level : string) (fs : FS) :
  length argv <= 3 ->
  last_two argv = [jar_file; level] ->
  PyStr.endswith jar_file ".jar" = true ->
  (forall members, fs !! jar_file <> Some (File (Archive members))) ->
  main os argv fs = mkOut fs [EvOpenZip jar_file] (inl (open_error fs jar_file)).
Proof.
  intros Hlen Hlast Hjar Hnone.
  rewrite (main_unpacked os argv jar_file level fs Hlen Hlast), main_jar by done.
  unfold _invalid_language_level, mbind, M_bind, ZipFile, open_error.
  cbn [result final_fs trace].
  destruct (fs !! jar_file) as [[|[bytes|members]]|] eqn:Hfile; try reflexivity.
  by destruct (Hnone members).
Qed.

Lemma X2_unreadable_archive_witness :
  main Demo.os ["validate.py"; "missing.jar"; "52"] (Demo.fs_of "lib.jar" [Demo.Y52]) =
  mkOut (Demo.fs_of "lib.jar" [Demo.Y52]) [EvOpenZip "missing.jar"]
    (inl (open_error (Demo.fs_of "lib.jar" [Demo.Y52]) "missing.jar")).
Proof.
  apply (X2_unreadable_archive Demo.os ["validate.py"; "missing.jar"; "52"] "missing.jar" "52").
  - cbn. lia.
  - reflexivity.
  - reflexivity.
  - intros members. vm_compute. discriminate.
Defined.

Example X2_errors :
  open_error (Demo.fs_of "lib.jar" [Demo.Y52]) "missing.jar" = FileNotFoundError "missing.jar" /\
  open_error {[ "out.jar" := Dir ]} "out.jar" = IsADirectoryError "out.jar" /\
  open_error {[ "notes.jar" := File (Data "text") ]} "notes.jar" = BadZipFile "notes.jar".
Proof. repeat split; vm_compute; reflexivity. Qed.

(** ** A disassembler that fails *)

Section ProcessError.

Variable os : OS.
Variables jar_file level : string.
Variable fs : FS.

Lemma scan_process_error n i info infos inv u :
  is_class_entry info = true ->
  disassembly os fs jar_file info = None ->
  scan_entries os jar_file level n i (info :: infos) inv u fs =
  mkOut fs [EvPrint jar_file (i + 1) n level u; EvRun (javap_cmd jar_file info)]
    (inl (process_error os fs (javap_cmd jar_file info))).
Proof.
  intros Hclass Hout.
  assert (Hv : extracted_version os fs jar_file info = None)
    by (unfold extracted_version; by rewrite Hout).
  rewrite (scan_abort os jar_file level n i info infos inv u fs Hclass Hv).
  unfold disassembly in Hout. unfold process_error.
  destruct (run_process os fs (javap_cmd jar_file info)) as [rc out|]; [|done].
  by destruct (rc =? 0)%Z.
Qed.

Lemma scan_stops_on_process_error info after :
  is_class_entry info = true ->
  disassembly os fs jar_file info = None ->
  forall before n i inv u,
    all_extracted os fs jar_file before ->
    result (scan_entries os jar_file level n i (before ++ info :: after) inv u fs) =
      inl (process_error os fs (javap_cmd jar_file info)) /\
    last (trace (scan_entries os jar_file level n i (before ++ info :: after) inv u fs)) =
      Some (EvRun (javap_cmd jar_file info)) /\
    commands (trace (scan_entries os jar_file level n i (before ++ info :: after) inv u fs)) =
      (javap_cmd jar_file <$> filter (fun a => is_class_entry a = true) before) ++
      [javap_cmd jar_file info].
Proof.
  intros Hclass Hout.
  induction before as [|a before IH]; intros n i inv u Hall; cbn [app].
  - by rewrite (scan_process_error n i info after inv u Hclass Hout).
  - apply Forall_cons in Hall as [Ha Hall]. rewrite filter_cons.
    destruct (is_class_entry a) eqn:Hclass_a.
    + destruct (Ha eq_refl) as [v Hv].
      rewrite (scan_class os jar_file level n i a _ inv u fs v Hclass_a Hv).
      cbn [result trace]. rewrite !commands_cons, !last_cons.
      destruct (IH n (S i) (if String.eqb v level then inv
                            else inv ++ [filename a +:+ ": " +:+ v])
                  ({[v]} ∪ u) Hall) as (-> & -> & ->).
      by rewrite decide_True.
    + rewrite (scan_skip os jar_file level n i a _ inv u fs Hclass_a).
      cbn [result trace]. rewrite commands_cons, last_cons.
      destruct (IH n (S i) inv u Hall) as (-> & -> & ->).
      by rewrite decide_False.
Qed.

End ProcessError.

(** X3. In a [.jar], a class entry for which the disassembler does not end
    with status 0 (or cannot be started), after entries that disassemble to
    exactly one version: [main] ends with the error of [subprocess.run],
    [CalledProcessError] with the status and the command (or
    [FileNotFoundError]); the error is not caught, the failing call is the
    last effect and no later entry is disassembled, and mismatches found
    before it are not reported. *)
Theorem X3_disassembler_failure (os : OS) (argv : list string) (jar_file level : string)
    (fs : FS) (members : list (ZipInfo * file)) (before after : list ZipInfo) (info : ZipInfo) :
  length argv <= 3 ->
  last_two argv = [jar_file; level] ->
  PyStr.endswith jar_file ".jar" = true ->
  fs !! jar_file = Some (File (Archive members)) ->
  infolist members = before ++ info :: after ->
  all_extracted os fs jar_file before ->
  is_class_entry info = true ->
  disassembly os fs jar_file info = None ->
  result (main os argv fs) = inl (process_error os fs (javap_cmd jar_file info)) /\
  last (trace (main os argv fs)) = Some (EvRun (javap_cmd jar_file info)) /\
  commands (trace (main os argv fs)) =
    (javap_cmd jar_file <$> filter (fun a => is_class_entry a = true) before) ++
    [javap_cmd jar_file info].
Proof.
  intros Hlen Hlast Hjar Hfile Hinfos Hall Hclass Hout.
  rewrite (main_unpacked os argv jar_file level fs Hlen Hlast), main_jar by done.
  cbn [result trace].
  rewrite (invalid_language_level_archive os _ _ _ _ Hfile). cbn [result trace].
  rewrite commands_cons, last_cons, Hinfos.
  destruct (scan_stops_on_process_error os jar_file level fs info after Hclass Hout
              before (length (before ++ info :: after)) 0 [] ∅ Hall) as (-> & -> & ->).
  done.
Qed.

Lemma X3_disassembler_failure_witness :
  result (main Demo.os ["validate.py"; "lib.jar"; "52"]
            (Demo.fs_of "lib.jar" [Demo.Z55; Demo.nested; Demo.W49])) =
    inl (process_error Demo.os (Demo.fs_of "lib.jar" [Demo.Z55; Demo.nested; Demo.W49])
           (javap_cmd "lib.jar" (fst Demo.nested))) /\
  last (trace (main Demo.os ["validate.py"; "lib.jar"; "52"]
                 (Demo.fs_of "lib.jar" [Demo.Z55; Demo.nested; Demo.W49]))) =
    Some (EvRun (javap_cmd "lib.jar" (fst Demo.nested))) /\
  commands (trace (main Demo.os ["validate.py"; "lib.jar"; "52"]
                     (Demo.fs_of "lib.jar" [Demo.Z55; Demo.nested; Demo.W49]))) =
    (javap_cmd "lib.jar" <$> filter (fun a => is_class_entry a = true) [fst Demo.Z55]) ++
    [javap_cmd "lib.jar" (fst Demo.nested)].
Proof.
  apply (X3_disassembler_failure Demo.os ["validate.py"; "lib.jar"; "52"] "lib.jar" "52"
           (Demo.fs_of "lib.jar" [Demo.Z55; Demo.nested; Demo.W49])
           [Demo.Z55; Demo.nested; Demo.W49] [fst Demo.Z55] [fst Demo.W49] (fst Demo.nested)).
  - cbn. lia.
  - reflexivity.
  - reflexivity.
  - reflexivity.
  - reflexivity.
  - repeat constructor; intros _; vm_compute; eexists; reflexivity.
  - reflexivity.
  - vm_compute. reflexivity.
Defined.

Example X3_run :
  result (main Demo.os ["validate.py"; "lib.jar"; "52"]
            (Demo.fs_of "lib.jar" [Demo.Z55; Demo.nested; Demo.W49])) =
  inl (CalledProcessError 1 ["javap"; "-cp"; "lib.jar"; "-v"; "com/x/N"]).
Proof. vm_compute. reflexivity. Qed.

(** ** The scratch directory and the rest of the file system *)

Lemma startswith_app (a b : string) : PyStr.startswith (a +:+ b) a = true.
Proof.
  induction a as [|c a IH]; [by destruct b|].
  change (String c a +:+ b) with (String c (a +:+ b)). cbn [PyStr.startswith].
  by rewrite Ascii.eqb_refl.
Qed.

Lemma append_assoc_string (a b c : string) : (a +:+ b) +:+ c = a +:+ (b +:+ c).
Proof.
  induction a as [|x a IH]; [reflexivity|].
  change (String x a +:+ b) with (String x (a +:+ b)).
  change (String x (a +:+ b) +:+ c) with (String x ((a +:+ b) +:+ c)).
  by rewrite IH.
Qed.

(** The extracted file is below the directory it is extracted to. *)
Lemma extracted_below (dirpath member : string) :
  below dirpath (dirpath +:+ "/" +:+ member) = true.
Proof.
  unfold below. rewrite <- append_assoc_string, startswith_app. apply orb_true_r.
Qed.

Lemma getinfo_none (zip_file : list (ZipInfo * file)) (name : string) :
  Forall (fun m => filename (fst m) <> name) zip_file ->
  getinfo zip_file name = None.
Proof.
  intros Hnone. unfold getinfo.
  induction Hnone as [|m zip_file Hm _ IH]; [reflexivity|].
  by rewrite filter_cons, decide_False.
Qed.

Section Scratch.

Variable os : OS.
Variables jar_file level dirpath : string.

(** The block of lines 26-28 changes the file system at the extracted file
    at most. *)
Lemma extract_and_scan_final_fs fs :
  final_fs (extract_and_scan os jar_file level dirpath fs) = fs \/
  exists x, final_fs (extract_and_scan os jar_file level dirpath fs) =
            <[dirpath +:+ "/" +:+ "classes.jar" := x]> fs.
Proof.
  remember (final_fs (extract_and_scan os jar_file level dirpath fs)) as after eqn:Hafter.
  unfold extract_and_scan, mbind, M_bind, ZipFile in Hafter.
  cbn [result final_fs trace] in Hafter.
  destruct (fs !! jar_file) as [[|[bytes|members]]|]; cbn [final_fs] in Hafter; try by left.
  unfold extract in Hafter.
  destruct (getinfo members "classes.jar") as [[info content]|];
    cbn [result final_fs trace raise] in Hafter; [|by left].
  rewrite invalid_language_level_final_fs in Hafter. right. by eexists.
Qed.

(** The block when the outer archive opens and has no such member. *)
Lemma extract_and_scan_no_member fs outer :
  fs !! jar_file = Some (File (Archive outer)) ->
  getinfo outer "classes.jar" = None ->
  extract_and_scan os jar_file level dirpath fs =
  mkOut fs [EvOpenZip jar_file]
    (inl (KeyError "There is no item named 'classes.jar' in the archive")).
Proof.
  intros Hfile Hmember.
  unfold extract_and_scan, mbind, M_bind, ZipFile. cbn [result final_fs trace].
  rewrite Hfile. unfold extract. rewrite Hmember. reflexivity.
Qed.

(** Removing the scratch directory leaves the paths outside it. *)
Lemma rmtree_outside (fs : FS) (p : string) :
  below dirpath p = false ->
  filter (fun kv : string * node => below dirpath (fst kv) = false) fs !! p = fs !! p.
Proof.
  intros Hp. destruct (fs !! p) as [x|] eqn:Hx.
  - by apply map_lookup_filter_Some_2.
  - apply map_lookup_filter_None_2. by left.
Qed.

Lemma rmtree_inside (fs : FS) (p : string) :
  below dirpath p = true ->
  filter (fun kv : string * node => below dirpath (fst kv) = false) fs !! p = None.
Proof.
  intros Hp. apply map_lookup_filter_None_2. right. intros x _. cbn. by rewrite Hp.
Qed.

(** After the block, a path outside the scratch directory holds what it held
    before [mkdtemp]. *)
Lemma extract_and_scan_outside fs p :
  below dirpath p = false ->
  final_fs (extract_and_scan os jar_file level dirpath (<[dirpath := Dir]> fs)) !! p = fs !! p.
Proof.
  intros Hp.
  assert (Hdir : p <> dirpath) by (intros ->; by rewrite below_self in Hp).
  assert (Hfile : p <> dirpath +:+ "/" +:+ "classes.jar")
    by (intros ->; by rewrite extracted_below in Hp).
  destruct (extract_and_scan_final_fs (<[dirpath := Dir]> fs)) as [->|[x ->]].
  - by rewrite lookup_insert_ne.
  - by rewrite !lookup_insert_ne.
Qed.

End Scratch.

(** X4. An [.aar] without a member [classes.jar]: [main] ends with the
    [KeyError] of [extract]; the disassembler is not run, and the only change
    to the file system is the scratch directory, which stays. *)
Theorem X4_aar_without_classes_jar (os : OS) (argv : list string) (jar_file level : string)
    (fs : FS) (outer : list (ZipInfo * file)) :
  length argv <= 3 ->
  last_two argv = [jar_file; level] ->
  PyStr.endswith jar_file ".aar" = true ->
  fs !! mkdtemp_path os fs = None ->
  fs !! jar_file = Some (File (Archive outer)) ->
  Forall (fun m => filename (fst m) <> "classes.jar") outer ->
  main os argv fs =
  mkOut (<[mkdtemp_path os fs := Dir]> fs)
        [EvMkdtemp (mkdtemp_path os fs); EvOpenZip jar_file]
        (inl (KeyError "There is no item named 'classes.jar' in the archive")).
Proof.
  intros Hlen Hlast Haar Hfresh Hfile Hnone.
  rewrite (main_unpacked os argv jar_file level fs Hlen Hlast).
  rewrite main_aar by auto using endswith_aar_not_jar. cbv zeta.
  assert (Hfile' : <[mkdtemp_path os fs := Dir]> fs !! jar_file = Some (File (Archive outer))).
  { rewrite lookup_insert_ne; [done|]. intros Heq. rewrite Heq in Hfresh. congruence. }
  by rewrite (extract_and_scan_no_member os jar_file level _ _ outer Hfile'
                (getinfo_none outer "classes.jar" Hnone)).
Qed.

Lemma X4_aar_without_classes_jar_witness :
  main Demo.os ["validate.py"; "lib.aar"; "52"]
    (Demo.fs_of "lib.aar" [(mkZipInfo "AndroidManifest.xml" false, Data "<manifest/>")]) =
  mkOut (<[mkdtemp_path Demo.os
             (Demo.fs_of "lib.aar" [(mkZipInfo "AndroidManifest.xml" false, Data "<manifest/>")])
           := Dir]>
           (Demo.fs_of "lib.aar" [(mkZipInfo "AndroidManifest.xml" false, Data "<manifest/>")]))
        [EvMkdtemp (mkdtemp_path Demo.os
                      (Demo.fs_of "lib.aar"
                         [(mkZipInfo "AndroidManifest.xml" false, Data "<manifest/>")]));
         EvOpenZip "lib.aar"]
        (inl (KeyError "There is no item named 'classes.jar' in the archive")).
Proof.
  apply (X4_aar_without_classes_jar Demo.os ["validate.py"; "lib.aar"; "52"] "lib.aar" "52"
           (Demo.fs_of "lib.aar" [(mkZipInfo "AndroidManifest.xml" false, Data "<manifest/>")])
           [(mkZipInfo "AndroidManifest.xml" false, Data "<manifest/>")]).
  - cbn. lia.
  - reflexivity.
  - reflexivity.
  - vm_compute. reflexivity.
  - reflexivity.
  - repeat constructor. cbn. discriminate.
Defined.

(** X5. For an [.aar], a path that is neither the scratch directory nor
    below it holds after [main] what it held before, whatever the outcome:
    the run writes and removes inside the scratch directory only. *)
Theorem X5_aar_run_outside_scratch (os : OS) (argv : list string) (jar_file level : string)
    (fs : FS) (p : string) :
  length argv <= 3 ->
  last_two argv = [jar_file; level] ->
  PyStr.endswith jar_file ".aar" = true ->
  below (mkdtemp_path os fs) p = false ->
  final_fs (main os argv fs) !! p = fs !! p.
Proof.
  intros Hlen Hlast Haar Hp.
  rewrite (main_unpacked os argv jar_file level fs Hlen Hlast).
  rewrite main_aar by auto using endswith_aar_not_jar. cbv zeta.
  destruct (result (extract_and_scan os jar_file level _ _)) as [e|lines]; cbn [final_fs].
  - by apply extract_and_scan_outside.
  - rewrite rmtree_outside by done. by apply extract_and_scan_outside.
Qed.

Lemma X5_aar_run_outside_scratch_witness :
  final_fs (main Demo.os ["validate.py"; "lib.aar"; "52"]
              (Demo.fs_of "lib.aar" [(mkZipInfo "classes.jar" false, Archive [Demo.Y52; Demo.broken])]))
    !! "lib.aar" =
  Demo.fs_of "lib.aar" [(mkZipInfo "classes.jar" false, Archive [Demo.Y52; Demo.broken])] !! "lib.aar".
Proof.
  apply (X5_aar_run_outside_scratch Demo.os ["validate.py"; "lib.aar"; "52"] "lib.aar" "52").
  - cbn. lia.
  - reflexivity.
  - reflexivity.
  - reflexivity.
Defined.

(** X6. For an [.aar], when nothing was at the path [mkdtemp] picks or below
    it and the block of lines 26-28 returns, the file system after [main] is
    the file system before: what was extracted is removed again, also when
    the validation error follows. *)
Theorem X6_aar_run_restores (os : OS) (argv : list string) (jar_file level : string)
    (fs : FS) (lines : list string) :
  length argv <= 3 ->
  last_two argv = [jar_file; level] ->
  PyStr.endswith jar_file ".aar" = true ->
  (forall p, below (mkdtemp_path os fs) p = true -> fs !! p = None) ->
  result (extract_and_scan os jar_file level (mkdtemp_path os fs)
            (<[mkdtemp_path os fs := Dir]> fs)) = inr lines ->
  final_fs (main os argv fs) = fs.
Proof.
  intros Hlen Hlast Haar Hfresh Hblock.
  rewrite (main_unpacked os argv jar_file level fs Hlen Hlast).
  rewrite main_aar by auto using endswith_aar_not_jar. cbv zeta.
  rewrite Hblock. cbn [final_fs]. apply map_eq. intros p.
  destruct (below (mkdtemp_path os fs) p) eqn:Hp.
  - rewrite rmtree_inside by done. symmetry. by apply Hfresh.
  - rewrite rmtree_outside by done. by apply extract_and_scan_outside.
Qed.

Lemma X6_aar_run_restores_witness :
  final_fs (main Demo.os ["validate.py"; "lib.aar"; "52"]
              (Demo.fs_of "lib.aar" [(mkZipInfo "classes.jar" false, Archive [Demo.Y52; Demo.Z55])])) =
  Demo.fs_of "lib.aar" [(mkZipInfo "classes.jar" false, Archive [Demo.Y52; Demo.Z55])].
Proof.
  apply (X6_aar_run_restores Demo.os ["validate.py"; "lib.aar"; "52"] "lib.aar" "52"
           (Demo.fs_of "lib.aar" [(mkZipInfo "classes.jar" false, Archive [Demo.Y52; Demo.Z55])])
           ["com/x/Z.class: 55"]).
  - cbn. lia.
  - reflexivity.
  - reflexivity.
  - intros p Hp. apply lookup_singleton_None. intros <-. vm_compute in Hp. discriminate Hp.
  - vm_compute. reflexivity.
Defined.

(** ** A scan that returns *)

Lemma progress_cons ev tr :
  progress (ev :: tr) =
  match ev with EvPrint _ i n _ _ => (i, n) :: progress tr | _ => progress tr end.
Proof. by destruct ev. Qed.

Section Returns.

Variable os : OS.
Variables jar_file level : string.
Variable fs : FS.

(** What the trace of a scan that returns shows. *)
Lemma scan_returns infos :
  forall n i inv u lines,
    result (scan_entries os jar_file level n i infos inv u fs) = inr lines ->
    all_extracted os fs jar_file infos /\
    commands (trace (scan_entries os jar_file level n i infos inv u fs)) =
      javap_cmd jar_file <$> filter (fun a => is_class_entry a = true) infos /\
    progress (trace (scan_entries os jar_file level n i infos inv u fs)) =
      (fun k => (k, n)) <$> seq (i + 1) (length infos).
Proof.
  induction infos as [|info infos IH]; intros n i inv u lines Hret.
  - split; [constructor|done].
  - rewrite filter_cons. cbn [length seq]. rewrite fmap_cons.
    destruct (is_class_entry info) eqn:Hclass.
    + destruct (extracted_version os fs jar_file info) as [v|] eqn:Hv.
      * rewrite (scan_class os jar_file level n i info infos inv u fs v Hclass Hv) in Hret |- *.
        cbn [result trace] in Hret |- *.
        destruct (IH n (S i) _ _ lines Hret) as (Hall & Hcmd & Hprog).
        rewrite !commands_cons, !progress_cons, Hcmd, Hprog, decide_True by done.
        split; [|done]. constructor; [|done]. intros _. by eexists.
      * rewrite (scan_abort os jar_file level n i info infos inv u fs Hclass Hv) in Hret.
        cbn [result] in Hret.
        destruct (run_process os fs (javap_cmd jar_file info)) as [rc out|]; [|done].
        by destruct (rc =? 0)%Z.
    + rewrite (scan_skip os jar_file level n i info infos inv u fs Hclass) in Hret |- *.
      cbn [result trace] in Hret |- *.
      destruct (IH n (S i) _ _ lines Hret) as (Hall & Hcmd & Hprog).
      rewrite !commands_cons, !progress_cons, Hcmd, Hprog, decide_False by done.
      split; [|done]. constructor; [|done]. intros H. congruence.
Qed.

End Returns.

(** X7. [_invalid_language_level] on an archive returns a list exactly when
    every class entry disassembles to exactly one version; the list is then
    the lines of the mismatched entries. *)
Theorem X7_scan_returns_iff (os : OS) (jar_file level : string) (fs : FS)
    (members : list (ZipInfo * file)) (lines : list string) :
  fs !! jar_file = Some (File (Archive members)) ->
  result (_invalid_language_level os jar_file level fs) = inr lines <->
  all_extracted os fs jar_file (infolist members) /\
  lines = invalid_lines os fs jar_file level (infolist members).
Proof.
  intros Hfile. split.
  - intros Hret.
    assert (Hall : all_extracted os fs jar_file (infolist members)).
    { rewrite (invalid_language_level_archive os _ _ _ _ Hfile) in Hret. cbn [result] in Hret.
      by destruct (scan_returns os jar_file level fs _ _ _ _ _ _ Hret). }
    split; [done|].
    rewrite (invalid_language_level_result os fs jar_file level members Hfile Hall) in Hret.
    congruence.
  - intros [Hall ->]. by apply invalid_language_level_result.
Qed.

Lemma X7_scan_returns_iff_witness :
  result (_invalid_language_level Demo.os "lib.jar" "52"
            (Demo.fs_of "lib.jar" [Demo.Y52; Demo.Z55])) = inr ["com/x/Z.class: 55"] <->
  all_extracted Demo.os (Demo.fs_of "lib.jar" [Demo.Y52; Demo.Z55]) "lib.jar"
    (infolist [Demo.Y52; Demo.Z55]) /\
  ["com/x/Z.class: 55"] =
    invalid_lines Demo.os (Demo.fs_of "lib.jar" [Demo.Y52; Demo.Z55]) "lib.jar" "52"
      (infolist [Demo.Y52; Demo.Z55]).
Proof.
  apply (X7_scan_returns_iff Demo.os "lib.jar" "52" (Demo.fs_of "lib.jar" [Demo.Y52; Demo.Z55])
           [Demo.Y52; Demo.Z55] ["com/x/Z.class: 55"]).
  reflexivity.
Defined.

(** X8. When the scan of a [.jar] returns, [main] has run the disassembler
    once for every class entry, in stored order, and for nothing else, also
    when it then raises the validation error. *)
Theorem X8_one_run_per_class (os : OS) (argv : list string) (jar_file level : string)
    (fs : FS) (members : list (ZipInfo * file)) (lines : list string) :
  length argv <= 3 ->
  last_two argv = [jar_file; level] ->
  PyStr.endswith jar_file ".jar" = true ->
  fs !! jar_file = Some (File (Archive members)) ->
  result (_invalid_language_level os jar_file level fs) = inr lines ->
  commands (trace (main os argv fs)) =
  javap_cmd jar_file <$> filter (fun a => is_class_entry a = true) (infolist members).
Proof.
  intros Hlen Hlast Hjar Hfile Hret.
  rewrite (main_unpacked os argv jar_file level fs Hlen Hlast), main_jar by done.
  cbn [trace]. rewrite (invalid_language_level_archive os _ _ _ _ Hfile) in Hret |- *.
  cbn [result trace] in Hret |- *. rewrite commands_cons.
  by destruct (scan_returns os jar_file level fs _ _ _ _ _ _ Hret) as (_ & -> & _).
Qed.

Lemma X8_one_run_per_class_witness :
  commands (trace (main Demo.os ["validate.py"; "lib.jar"; "52"]
                     (Demo.fs_of "lib.jar" [Demo.folder "com/"; Demo.Y52; Demo.shaded55; Demo.Z55]))) =
  javap_cmd "lib.jar" <$>
    filter (fun a => is_class_entry a = true)
      (infolist [Demo.folder "com/"; Demo.Y52; Demo.shaded55; Demo.Z55]).
Proof.
  apply (X8_one_run_per_class Demo.os ["validate.py"; "lib.jar"; "52"] "lib.jar" "52"
           (Demo.fs_of "lib.jar" [Demo.folder "com/"; Demo.Y52; Demo.shaded55; Demo.Z55])
           [Demo.folder "com/"; Demo.Y52; Demo.shaded55; Demo.Z55] ["com/x/Z.class: 55"]).
  - cbn. lia.
  - reflexivity.
  - reflexivity.
  - reflexivity.
  - vm_compute. reflexivity.
Defined.

(** X9. When the scan of a [.jar] returns, [main] has printed one progress
    line per entry of the archive, class or not, numbered 1, 2, ... up to
    the number of entries, each with the number of entries. *)
Theorem X9_progress_lines (os : OS) (argv : list string) (jar_file level : string)
    (fs : FS) (members : list (ZipInfo * file)) (lines : list string) :
  length argv <= 3 ->
  last_two argv = [jar_file; level] ->
  PyStr.endswith jar_file ".jar" = true ->
  fs !! jar_file = Some (File (Archive members)) ->
  result (_invalid_language_level os jar_file level fs) = inr lines ->
  progress (trace (main os argv fs)) =
  (fun k => (k, length members)) <$> seq 1 (length members).
Proof.
  intros Hlen Hlast Hjar Hfile Hret.
  rewrite (main_unpacked os argv jar_file level fs Hlen Hlast), main_jar by done.
  cbn [trace]. rewrite (invalid_language_level_archive os _ _ _ _ Hfile) in Hret |- *.
  cbn [result trace] in Hret |- *. rewrite progress_cons.
  destruct (scan_returns os jar_file level fs _ _ _ _ _ _ Hret) as (_ & _ & ->).
  unfold infolist. by rewrite length_fmap.
Qed.

Lemma X9_progress_lines_witness :
  progress (trace (main Demo.os ["validate.py"; "lib.jar"; "52"]
                     (Demo.fs_of "lib.jar" [Demo.folder "com/"; Demo.Y52; Demo.Z55]))) =
  (fun k => (k, length [Demo.folder "com/"; Demo.Y52; Demo.Z55])) <$>
    seq 1 (length [Demo.folder "com/"; Demo.Y52; Demo.Z55]).
Proof.
  apply (X9_progress_lines Demo.os ["validate.py"; "lib.jar"; "52"] "lib.jar" "52"
           (Demo.fs_of "lib.jar" [Demo.folder "com/"; Demo.Y52; Demo.Z55])
           [Demo.folder "com/"; Demo.Y52; Demo.Z55] ["com/x/Z.class: 55"]).
  - cbn. lia.
  - reflexivity.
  - reflexivity.
  - reflexivity.
  - vm_compute. reflexivity.
Defined.

Example X9_run :
  progress (trace (main Demo.os ["validate.py"; "lib.jar"; "52"]
                     (Demo.fs_of "lib.jar" [Demo.folder "com/"; Demo.Y52; Demo.Z55]))) =
  [(1, 3); (2, 3); (3, 3)].
Proof. vm_compute. reflexivity. Qed.

(** ** The pattern of the major version *)

Section Pattern.

Lemma string_app_cons (c : ascii) (a b : string) : String c a +:+ b = String c (a +:+ b).
Proof. reflexivity. Qed.

Lemma string_app_empty_r (a : string) : a +:+ "" = a.
Proof. induction a as [|c a IH]; [reflexivity|]. by rewrite string_app_cons, IH. Qed.

Lemma digits_length (s : string) : String.length (Re.digits s) <= String.length s.
Proof.
  induction s as [|c s IH]; cbn [Re.digits String.length]; [lia|].
  destruct (Re.is_digit c); cbn [String.length]; lia.
Qed.

Lemma digits_all (s : string) : all_chars Re.is_digit (Re.digits s) = true.
Proof.
  induction s as [|c s IH]; cbn [Re.digits]; [reflexivity|].
  destruct (Re.is_digit c) eqn:Hc; cbn [all_chars]; [|reflexivity]. by rewrite Hc.
Qed.

(** The greedy [\d+] stops where the digits stop. *)
Lemma digits_app (d rest : string) :
  all_chars Re.is_digit d = true ->
  head_is_digit rest = false ->
  Re.digits (d +:+ rest) = d.
Proof.
  intros Hd Hrest. induction d as [|c d IH].
  - destruct rest as [|c rest]; [reflexivity|]. cbn in Hrest. cbn [String.append Re.digits].
    change ("" +:+ String c rest) with (String c rest). cbn [Re.digits]. by rewrite Hrest.
  - cbn [all_chars] in Hd. apply andb_true_iff in Hd as [Hc Hd].
    rewrite string_app_cons. cbn [Re.digits]. by rewrite Hc, IH.
Qed.

Lemma strip_prefix_length (p s r : string) :
  Re.strip_prefix p s = Some r -> String.length s = String.length p + String.length r.
Proof.
  revert s. induction p as [|a p IH]; intros s; cbn [Re.strip_prefix].
  - by intros [= <-].
  - destruct s as [|c s]; [done|]. destruct (Ascii.eqb c a); [|done].
    intros H. cbn [String.length]. by rewrite (IH s H).
Qed.

Lemma strip_prefix_self (p r : string) : Re.strip_prefix p (p +:+ r) = Some r.
Proof.
  induction p as [|a p IH]; [by destruct r|].
  rewrite string_app_cons. cbn [Re.strip_prefix]. by rewrite Ascii.eqb_refl.
Qed.

(** A piece of text that starts with [m] after [s] does not change how a
    part of the literal without [m] is stripped from [s]. *)
Lemma strip_prefix_before_m (q s rest : string) :
  no_m q = true ->
  Re.strip_prefix q (s +:+ String "m" rest) =
  (fun r => r +:+ String "m" rest) <$> Re.strip_prefix q s.
Proof.
  revert s. induction q as [|a q IH]; intros s Hq.
  - cbn [Re.strip_prefix]. by destruct s.
  - cbn [no_m all_chars] in Hq. apply andb_true_iff in Hq as [Ha Hq].
    destruct s as [|c s].
    + change ("" +:+ String "m" rest) with (String "m" rest). cbn [Re.strip_prefix].
      rewrite Ascii.eqb_sym. by destruct (Ascii.eqb a "m").
    + rewrite string_app_cons. cbn [Re.strip_prefix].
      destruct (Ascii.eqb c a); [by apply IH|done].
Qed.

(** A match that starts before a piece of text starting with [m] ends
    before it. *)
Lemma match_here_before_m (c : ascii) (s rest : string) :
  Re.match_here (String c s +:+ String "m" rest) = Re.match_here (String c s).
Proof.
  unfold Re.match_here, Re.literal. rewrite string_app_cons.
  change "major version: " with (String "m" "ajor version: ").
  set (q := "ajor version: "). cbn [Re.strip_prefix].
  destruct (Ascii.eqb c "m"); [|reflexivity].
  rewrite strip_prefix_before_m by reflexivity.
  destruct (Re.strip_prefix q s) as [r|]; cbn [fmap option_fmap option_map]; [|reflexivity].
  replace (Re.digits (r +:+ String "m" rest)) with (Re.digits r); [reflexivity|].
  induction r as [|x r IH]; [reflexivity|].
  rewrite string_app_cons. cbn [Re.digits]. by rewrite IH.
Qed.

Lemma match_here_length (s d : string) (n : nat) :
  Re.match_here s = Some (d, n) -> n <= String.length s.
Proof.
  unfold Re.match_here.
  destruct (Re.strip_prefix Re.literal s) as [r|] eqn:Hr; [|done].
  destruct (String.eqb (Re.digits r) ""); [done|]. intros [= <- <-].
  rewrite (strip_prefix_length _ _ _ Hr). pose proof (digits_length r).
  change (String.length Re.literal) with 15. lia.
Qed.

Lemma match_here_digits (s d : string) (n : nat) :
  Re.match_here s = Some (d, n) -> digit_string d = true.
Proof.
  unfold Re.match_here, digit_string.
  destruct (Re.strip_prefix Re.literal s) as [r|]; [|done].
  destruct (String.eqb (Re.digits r) "") eqn:He; [done|]. intros [= <- <-].
  by rewrite He, digits_all.
Qed.

(** The search goes on after the characters of a match. *)
Lemma findall_from_skip (a rest : string) :
  Re.findall_from (String.length a) (a +:+ rest) = Re.findall_from 0 rest.
Proof.
  induction a as [|c a IH]; [by destruct rest|].
  rewrite string_app_cons. cbn [String.length Re.findall_from]. exact IH.
Qed.

(** A piece of text that starts with [m] does not change the matches found
    before it. *)
Lemma findall_from_before_m (pre rest : string) (k : nat) :
  Re.findall_from k (pre +:+ String "m" rest) =
  Re.findall_from k pre ++ Re.findall_from (k - String.length pre) (String "m" rest).
Proof.
  revert k. induction pre as [|c pre IH]; intros k.
  - change ("" +:+ String "m" rest) with (String "m" rest). cbn [Re.findall_from String.length].
    by rewrite Nat.sub_0_r.
  - destruct k as [|k].
    + rewrite string_app_cons.
      change (Re.findall_from 0 (String c (pre +:+ String "m" rest))) with
        (match Re.match_here (String c (pre +:+ String "m" rest)) with
         | Some (d, n) => d :: Re.findall_from (n - 1) (pre +:+ String "m" rest)
         | None => Re.findall_from 0 (pre +:+ String "m" rest)
         end).
      change (Re.findall_from 0 (String c pre)) with
        (match Re.match_here (String c pre) with
         | Some (d, n) => d :: Re.findall_from (n - 1) pre
         | None => Re.findall_from 0 pre
         end).
      rewrite <- string_app_cons, match_here_before_m.
      destruct (Re.match_here (String c pre)) as [[d n]|] eqn:Hm.
      * apply match_here_length in Hm. cbn [String.length] in Hm.
        rewrite IH. replace (n - 1 - String.length pre) with 0 by lia. done.
      * rewrite IH. done.
    + rewrite string_app_cons. cbn [Re.findall_from String.length]. apply IH.
Qed.

End Pattern.

Lemma findall_from_digits (s : string) (k : nat) :
  Forall (fun d => digit_string d = true) (Re.findall_from k s).
Proof.
  revert k. induction s as [|c s IH]; intros k; [constructor|].
  destruct k as [|k]; cbn [Re.findall_from]; [|apply IH].
  destruct (Re.match_here (String c s)) as [[d n]|] eqn:Hm; [|apply IH].
  constructor; [by eapply match_here_digits|apply IH].
Qed.

(** X10. The matches of the pattern in a text with [major version: ] and
    digits [d] in it, the digits not followed by a digit: those of the text
    before, then [d], then those of the text after.  The text has exactly one
    match when the parts before and after have none. *)
Theorem X10_findall_around_version (pre d post : string) :
  digit_string d = true ->
  head_is_digit post = false ->
  Re.findall (pre +:+ "major version: " +:+ d +:+ post) =
  Re.findall pre ++ d :: Re.findall post.
Proof.
  intros Hd Hpost. unfold digit_string in Hd. apply andb_true_iff in Hd as [Hne Hd].
  unfold Re.findall.
  change ("major version: " +:+ d +:+ post) with (String "m" ("ajor version: " +:+ d +:+ post)).
  rewrite findall_from_before_m. f_equal. rewrite Nat.sub_0_l.
  change (Re.findall_from 0 (String "m" ("ajor version: " +:+ d +:+ post))) with
    (match Re.match_here (Re.literal +:+ d +:+ post) with
     | Some (d', n) => d' :: Re.findall_from (n - 1) ("ajor version: " +:+ d +:+ post)
     | None => Re.findall_from 0 ("ajor version: " +:+ d +:+ post)
     end).
  unfold Re.match_here. rewrite strip_prefix_self, digits_app by done.
  destruct (String.eqb d ""); [done|]. f_equal.
  rewrite <- append_assoc_string.
  replace (String.length Re.literal + String.length d - 1)
    with (String.length ("ajor version: " +:+ d))
    by (rewrite length_app_string; reflexivity).
  apply findall_from_skip.
Qed.

Lemma X10_findall_around_version_witness :
  Re.findall (("Classfile Y.class" +:+ PyStr.newline +:+ "  minor version: 0" +:+ PyStr.newline +:+ "  ")
              +:+ "major version: " +:+ "52" +:+ (PyStr.newline +:+ "  flags: ACC_PUBLIC")) =
  Re.findall ("Classfile Y.class" +:+ PyStr.newline +:+ "  minor version: 0" +:+ PyStr.newline +:+ "  ")
  ++ "52" :: Re.findall (PyStr.newline +:+ "  flags: ACC_PUBLIC").
Proof.
  apply (X10_findall_around_version
           ("Classfile Y.class" +:+ PyStr.newline +:+ "  minor version: 0" +:+ PyStr.newline +:+ "  ")
           "52" (PyStr.newline +:+ "  flags: ACC_PUBLIC")).
  - reflexivity.
  - reflexivity.
Defined.

Lemma extracted_version_digits (os : OS) (fs : FS) (jar_file : string) (info : ZipInfo) (v : string) :
  extracted_version os fs jar_file info = Some v -> digit_string v = true.
Proof.
  unfold extracted_version.
  destruct (disassembly os fs jar_file info) as [out|]; cbn [fmap option_fmap option_map]; [|done].
  pose proof (findall_from_digits out 0) as Hall. fold (Re.findall out) in Hall.
  destruct (Re.findall out) as [|v' [|]]; try done. intros [= <-].
  by apply Forall_cons in Hall as [? _].
Qed.

(** X12. An expected level that is not a string of one or more decimal
    digits (a dotted version, a padded number, the empty string) equals no
    version: in an archive whose class entries all disassemble to exactly one
    version, every class entry is reported. *)
Theorem X12_level_that_is_no_number (os : OS) (jar_file level : string) (fs : FS)
    (members : list (ZipInfo * file)) :
  digit_string level = false ->
  fs !! jar_file = Some (File (Archive members)) ->
  all_extracted os fs jar_file (infolist members) ->
  result (_invalid_language_level os jar_file level fs) =
  inr (report_line os fs jar_file <$>
       filter (fun a => is_class_entry a = true) (infolist members)).
Proof.
  intros Hlevel Hfile Hall.
  rewrite (invalid_language_level_result os fs jar_file level members Hfile Hall).
  f_equal. unfold invalid_lines. f_equal.
  induction Hall as [|info infos Hinfo _ IH]; [reflexivity|].
  rewrite !filter_cons, IH.
  destruct (is_class_entry info) eqn:Hclass.
  - destruct (Hinfo eq_refl) as [v Hv].
    assert (Hm : mismatched os fs jar_file level info = true).
    { unfold mismatched. rewrite Hclass, Hv. cbn [andb].
      destruct (String.eqb_spec v level) as [->|]; [|done].
      apply extracted_version_digits in Hv. congruence. }
    by rewrite !decide_True.
  - assert (Hm : mismatched os fs jar_file level info = false)
      by (unfold mismatched; by rewrite Hclass).
    rewrite decide_False by (by rewrite Hm). by rewrite decide_False.
Qed.

Lemma X12_level_that_is_no_number_witness :
  result (_invalid_language_level Demo.os "lib.jar" "1.8"
            (Demo.fs_of "lib.jar" [Demo.folder "com/"; Demo.Y52; Demo.Z55])) =
  inr (report_line Demo.os (Demo.fs_of "lib.jar" [Demo.folder "com/"; Demo.Y52; Demo.Z55]) "lib.jar" <$>
       filter (fun a => is_class_entry a = true)
         (infolist [Demo.folder "com/"; Demo.Y52; Demo.Z55])).
Proof.
  apply (X12_level_that_is_no_number Demo.os "lib.jar" "1.8"
           (Demo.fs_of "lib.jar" [Demo.folder "com/"; Demo.Y52; Demo.Z55])
           [Demo.folder "com/"; Demo.Y52; Demo.Z55]).
  - reflexivity.
  - reflexivity.
  - repeat constructor; intros Hclass; vm_compute in Hclass |- *;
      first [discriminate Hclass | eexists; reflexivity].
Defined.

Example X12_run :
  result (_invalid_language_level Demo.os "lib.jar" "1.8"
            (Demo.fs_of "lib.jar" [Demo.folder "com/"; Demo.Y52; Demo.Z55])) =
  inr ["com/x/Y.class: 52"; "com/x/Z.class: 55"].
Proof. vm_compute. reflexivity. Qed.

(** ** The command line of the disassembler *)

(** [split] reads a run without white space into the word it is at. *)
Lemma split_from_word (w a rest : string) :
  no_space a = true ->
  PyStr.split_from w (a +:+ rest) = PyStr.split_from (w +:+ a) rest.
Proof.
  revert w. induction a as [|c a IH]; intros w Ha.
  - by rewrite string_app_empty_r.
  - cbn [no_space all_chars] in Ha. apply andb_true_iff in Ha as [Hc Ha].
    apply negb_true_iff in Hc.
    rewrite string_app_cons. cbn [PyStr.split_from]. rewrite Hc.
    rewrite (IH (w +:+ String c "") Ha). by rewrite append_assoc_string.
Qed.

(** A space ends the word. *)
Lemma split_from_space (w rest : string) :
  w <> "" ->
  PyStr.split_from w (String " " rest) = w :: PyStr.split_from "" rest.
Proof.
  intros Hw. cbn [PyStr.split_from].
  change (PyStr.is_space " ") with true. cbn iota.
  by destruct (String.eqb_spec w "").
Qed.

Lemma split_from_end (w : string) : w <> "" -> PyStr.split_from w "" = [w].
Proof. intros Hw. cbn [PyStr.split_from]. by destruct (String.eqb_spec w ""). Qed.

(** X13. When the archive path and the entry name without its last six
    characters are not empty and have no white space, the disassembler is
    called with five arguments: [javap -cp <archive> -v <class>].  (With white
    space in one of them, [cmd.split()] cuts it into several arguments.) *)
Theorem X13_command_of_five_words (jar_file : string) (info : ZipInfo) :
  jar_file <> "" ->
  no_space jar_file = true ->
  PyStr.drop_last 6 (filename info) <> "" ->
  no_space (PyStr.drop_last 6 (filename info)) = true ->
  javap_cmd jar_file info =
  ["javap"; "-cp"; jar_file; "-v"; PyStr.drop_last 6 (filename info)].
Proof.
  intros Hjar Hjar_space Hname Hname_space. unfold javap_cmd, PyStr.split.
  set (name := PyStr.drop_last 6 (filename info)) in *.
  change ("javap -cp " +:+ jar_file +:+ " -v " +:+ name) with
    ("javap" +:+ String " " ("-cp" +:+ String " " (jar_file +:+ String " " ("-v" +:+ String " " name)))).
  rewrite split_from_word, split_from_space by done.
  rewrite split_from_word, split_from_space by done.
  rewrite split_from_word, split_from_space by done.
  rewrite split_from_word, split_from_space by done.
  rewrite <- (string_app_empty_r name) at 1.
  by rewrite split_from_word, split_from_end.
Qed.

Lemma X13_command_of_five_words_witness :
  javap_cmd "/tmp/tmpq3x/classes.jar" (mkZipInfo "com/x/Y$1.class" false) =
  ["javap"; "-cp"; "/tmp/tmpq3x/classes.jar"; "-v";
   PyStr.drop_last 6 (filename (mkZipInfo "com/x/Y$1.class" false))].
Proof.
  apply (X13_command_of_five_words "/tmp/tmpq3x/classes.jar" (mkZipInfo "com/x/Y$1.class" false)).
  - discriminate.
  - reflexivity.
  - vm_compute. discriminate.
  - reflexivity.
Defined.

(** White space in the archive path or in the entry name makes other
    arguments. *)
Example X13_white_space :
  javap_cmd "my libs/lib.jar" (mkZipInfo "com/x/Y.class" false) =
    ["javap"; "-cp"; "my"; "libs/lib.jar"; "-v"; "com/x/Y"] /\
  javap_cmd "lib.jar" (mkZipInfo "com/x/My Class.class" false) =
    ["javap"; "-cp"; "lib.jar"; "-v"; "com/x/My"; "Class"] /\
  javap_cmd "lib.jar" (mkZipInfo ".class" false) = ["javap"; "-cp"; "lib.jar"; "-v"].
Proof. repeat split; vm_compute; reflexivity. Qed.

(** ** The name of the class *)

Lemma substring_all (s : string) : substring 0 (String.length s) s = s.
Proof. induction s as [|c s IH]; [reflexivity|]. cbn [String.length substring]. by rewrite IH. Qed.

Lemma substring_cut (s : string) (n : nat) :
  n <= String.length s ->
  substring 0 n s +:+ substring n (String.length s - n) s = s.
Proof.
  revert n. induction s as [|c s IH]; intros n Hn; cbn [String.length] in Hn.
  - by replace n with 0 by lia.
  - destruct n as [|n].
    + rewrite Nat.sub_0_r, substring_all. by destruct s.
    + cbn [String.length substring Nat.sub]. rewrite string_app_cons, IH by lia. done.
Qed.

(** X14. For an entry name that ends in [.class], the class name given to
    the disassembler, [filename[:-6]], followed by [.class] is the entry
    name: the name is cut at the suffix and nowhere else. *)
Theorem X14_class_name_of_entry (name : string) :
  PyStr.endswith name ".class" = true ->
  PyStr.drop_last 6 name +:+ ".class" = name.
Proof.
  unfold PyStr.endswith, PyStr.drop_last. cbn [String.length]. intros H.
  apply andb_true_iff in H as [Hlen Hsuffix].
  apply Nat.leb_le in Hlen. apply String.eqb_eq in Hsuffix.
  pose proof (substring_cut name (String.length name - 6)) as Hcut.
  replace (String.length name - (String.length name - 6)) with 6 in Hcut by lia.
  rewrite Hsuffix in Hcut. apply Hcut. lia.
Qed.

Lemma X14_class_name_of_entry_witness :
  PyStr.drop_last 6 "com/x/Outer$Inner.class" +:+ ".class" = "com/x/Outer$Inner.class".
Proof.
  apply (X14_class_name_of_entry "com/x/Outer$Inner.class"). reflexivity.
Defined.

(** ** Ignored prefixes *)

Lemma startswith_iff (s prefix : string) :
  PyStr.startswith s prefix = true <-> exists rest, s = prefix +:+ rest.
Proof.
  split; [|intros [rest ->]; apply startswith_app].
  revert s. induction prefix as [|p prefix IH]; intros s Hs; [by exists s|].
  destruct s as [|c s]; [done|]. cbn [PyStr.startswith] in Hs.
  destruct (Ascii.eqb_spec c p) as [->|]; [|done].
  destruct (IH s Hs) as [rest ->]. by exists rest.
Qed.

(** X15. [ignore_entry] accepts the names that are
    [dagger/spi/internal/shaded/] or [dagger/grpc/shaded/] followed by
    anything, and no other name; an entry with such a name, at any depth
    below one of the two and directory or not, is no class entry of the
    scan. *)
Theorem X15_below_ignored_prefix (name rest : string) (directory : bool) :
  (ignore_entry name = true <->
   exists rest',
     name = "dagger/spi/internal/shaded/" +:+ rest' \/ name = "dagger/grpc/shaded/" +:+ rest') /\
  is_class_entry (mkZipInfo ("dagger/spi/internal/shaded/" +:+ rest) directory) = false /\
  is_class_entry (mkZipInfo ("dagger/grpc/shaded/" +:+ rest) directory) = false.
Proof.
  assert (Hiff : forall n, ignore_entry n = true <->
            exists rest',
              n = "dagger/spi/internal/shaded/" +:+ rest' \/ n = "dagger/grpc/shaded/" +:+ rest').
  { intros n. unfold ignore_entry, ignore_entries_prefix. cbn [existsb].
    rewrite orb_false_r, orb_true_iff, !startswith_iff. split.
    - intros [[r Hr]|[r Hr]]; exists r; [by left|by right].
    - intros [r [Hr|Hr]]; [left|right]; by exists r. }
  split; [apply Hiff|].
  split; unfold is_class_entry; cbn [filename].
  - replace (ignore_entry ("dagger/spi/internal/shaded/" +:+ rest)) with true
      by (symmetry; apply Hiff; exists rest; by left).
    apply andb_false_r.
  - replace (ignore_entry ("dagger/grpc/shaded/" +:+ rest)) with true
      by (symmetry; apply Hiff; exists rest; by right).
    apply andb_false_r.
Qed.

(** Names next to the ignored ones. *)
Example X15_names :
  ignore_entry "dagger/grpc/shaded/io/netty/Channel.class" = true /\
  ignore_entry "dagger/spi/internal/shaded/" = true /\
  ignore_entry "dagger/grpc/shaded" = false /\
  ignore_entry "com/dagger/grpc/shaded/A.class" = false /\
  ignore_entry "dagger/spi/shaded/A.class" = false /\
  ignore_entry "Dagger/grpc/shaded/A.class" = false.
Proof. repeat split; reflexivity. Qed.

(** ** An Android archive that cannot be opened *)

(** X16. An [.aar] path at which there is no zip archive: the scratch
    directory is made before the path is opened, so [main] ends with the
    error of [ZipFile] and the new, empty scratch directory stays; the
    disassembler is not run. *)
Theorem X16_unreadable_aar (os : OS) (argv : list string) (jar_file level : string) (fs : FS) :
  length argv <= 3 ->
  last_two argv = [jar_file; level] ->
  PyStr.endswith jar_file ".aar" = true ->
  mkdtemp_path os fs <> jar_file ->
  (forall members, fs !! jar_file <> Some (File (Archive members))) ->
  main os argv fs =
  mkOut (<[mkdtemp_path os fs := Dir]> fs)
        [EvMkdtemp (mkdtemp_path os fs); EvOpenZip jar_file]
        (inl (open_error fs jar_file)).
Proof.
  intros Hlen Hlast Haar Hfresh Hnone.
  rewrite (main_unpacked os argv jar_file level fs Hlen Hlast).
  rewrite main_aar by auto using endswith_aar_not_jar. cbv zeta.
  unfold extract_and_scan, mbind, M_bind, ZipFile, open_error. cbn [result final_fs trace].
  rewrite lookup_insert_ne by done.
  destruct (fs !! jar_file) as [[|[bytes|members]]|] eqn:Hfile; try reflexivity.
  by destruct (Hnone members).
Qed.

Lemma X16_unreadable_aar_witness :
  main Demo.os ["validate.py"; "missing.aar"; "52"] (Demo.fs_of "lib.jar" [Demo.Y52]) =
  mkOut (<[mkdtemp_path Demo.os (Demo.fs_of "lib.jar" [Demo.Y52]) := Dir]>
           (Demo.fs_of "lib.jar" [Demo.Y52]))
        [EvMkdtemp (mkdtemp_path Demo.os (Demo.fs_of "lib.jar" [Demo.Y52]));
         EvOpenZip "missing.aar"]
        (inl (open_error (Demo.fs_of "lib.jar" [Demo.Y52]) "missing.aar")).
Proof.
  apply (X16_unreadable_aar Demo.os ["validate.py"; "missing.aar"; "52"] "missing.aar" "52").
  - cbn. lia.
  - reflexivity.
  - reflexivity.
  - vm_compute. discriminate.
  - intros members. vm_compute. discriminate.
Defined.

(** ** The levels the progress line shows *)

Lemma levels_shown_cons ev tr :
  levels_shown (ev :: tr) =
  match ev with EvPrint _ _ _ _ found => found :: levels_shown tr | _ => levels_shown tr end.
Proof. by destruct ev. Qed.

Section Levels.

Variable os : OS.
Variables jar_file level : string.
Variable fs : FS.

Lemma versions_class info infos v :
  is_class_entry info = true ->
  extracted_version os fs jar_file info = Some v ->
  versions os fs jar_file (info :: infos) = {[v]} ∪ versions os fs jar_file infos.
Proof.
  intros Hclass Hv. unfold versions.
  rewrite filter_cons, decide_True by done. cbn [omap list_omap]. by rewrite Hv.
Qed.

Lemma versions_skip info infos :
  is_class_entry info = false ->
  versions os fs jar_file (info :: infos) = versions os fs jar_file infos.
Proof.
  intros Hclass. unfold versions. by rewrite filter_cons, decide_False by (by rewrite Hclass).
Qed.

(** The progress line of an entry shows the levels the scan started with
    and the versions of the entries before it. *)
Lemma scan_levels infos :
  forall n i inv u lines,
    result (scan_entries os jar_file level n i infos inv u fs) = inr lines ->
    levels_shown (trace (scan_entries os jar_file level n i infos inv u fs)) =
    (fun k => u ∪ versions os fs jar_file (take k infos)) <$> seq 0 (length infos).
Proof.
  induction infos as [|info infos IH]; intros n i inv u lines Hret; [done|].
  cbn [length seq]. rewrite fmap_cons, <- fmap_S_seq, <- list_fmap_compose. cbn [take].
  assert (Hhead : u ∪ versions os fs jar_file [] = u) by apply union_empty_r_L.
  destruct (is_class_entry info) eqn:Hclass.
  - destruct (extracted_version os fs jar_file info) as [v|] eqn:Hv.
    + rewrite (scan_class os jar_file level n i info infos inv u fs v Hclass Hv) in Hret |- *.
      cbn [result trace] in Hret |- *.
      rewrite !levels_shown_cons, (IH n (S i) _ _ lines Hret), Hhead. f_equal.
      apply list_fmap_ext. intros _ k _. cbn [compose take].
      rewrite (versions_class info (take k infos) v Hclass Hv).
      by rewrite (comm_L (∪) {[v]} u), <- (assoc_L (∪)).
    + rewrite (scan_abort os jar_file level n i info infos inv u fs Hclass Hv) in Hret.
      cbn [result] in Hret.
      destruct (run_process os fs (javap_cmd jar_file info)) as [rc out|]; [|done].
      by destruct (rc =? 0)%Z.
  - rewrite (scan_skip os jar_file level n i info infos inv u fs Hclass) in Hret |- *.
    cbn [result trace] in Hret |- *.
    rewrite !levels_shown_cons, (IH n (S i) _ _ lines Hret), Hhead. f_equal.
    apply list_fmap_ext. intros _ k _. cbn [compose take].
    by rewrite (versions_skip info (take k infos) Hclass).
Qed.

End Levels.

(** X17. When the scan of an archive returns, the progress line of each
    entry shows the set of the versions of the class entries before it: the
    empty set on the first line, and never the version of the entry the line
    is for. *)
Theorem X17_levels_shown (os : OS) (jar_file level : string) (fs : FS)
    (members : list (ZipInfo * file)) (lines : list string) :
  fs !! jar_file = Some (File (Archive members)) ->
  result (_invalid_language_level os jar_file level fs) = inr lines ->
  levels_shown (trace (_invalid_language_level os jar_file level fs)) =
  (fun k => versions os fs jar_file (take k (infolist members))) <$> seq 0 (length members).
Proof.
  intros Hfile Hret.
  rewrite (invalid_language_level_archive os _ _ _ _ Hfile) in Hret |- *.
  cbn [result trace] in Hret |- *. rewrite levels_shown_cons.
  rewrite (scan_levels os jar_file level fs _ _ _ _ _ lines Hret).
  unfold infolist. rewrite length_fmap. apply list_fmap_ext. intros _ k _.
  apply union_empty_l_L.
Qed.

Lemma X17_levels_shown_witness :
  levels_shown (trace (_invalid_language_level Demo.os "lib.jar" "52"
                         (Demo.fs_of "lib.jar" [Demo.Y52; Demo.folder "com/"; Demo.Z55]))) =
  (fun k => versions Demo.os (Demo.fs_of "lib.jar" [Demo.Y52; Demo.folder "com/"; Demo.Z55]) "lib.jar"
              (take k (infolist [Demo.Y52; Demo.folder "com/"; Demo.Z55]))) <$>
    seq 0 (length [Demo.Y52; Demo.folder "com/"; Demo.Z55]).
Proof.
  apply (X17_levels_shown Demo.os "lib.jar" "52"
           (Demo.fs_of "lib.jar" [Demo.Y52; Demo.folder "com/"; Demo.Z55])
           [Demo.Y52; Demo.folder "com/"; Demo.Z55] ["com/x/Z.class: 55"]).
  - reflexivity.
  - vm_compute. reflexivity.
Defined.

Example X17_run :
  levels_shown (trace (_invalid_language_level Demo.os "lib.jar" "52"
                         (Demo.fs_of "lib.jar" [Demo.Y52; Demo.folder "com/"; Demo.Z55]))) =
  [∅; {["52"]}; {["52"]}].
Proof. vm_compute. reflexivity. Qed.
